(** * CRNN keyword-spotting model: hyperparameter registration and layer-graph assembly

    A shallow embedding of [kws_streaming/models/crnn.py]:
    - [model_parameters] registers eleven options on an argument parser;
    - [model] reads a flags record, parses the string-encoded hyperparameters
      and chains layer calls into a Keras functional model.

    The layers themselves ([SpeechFeatures], [Stream], [GRU], the Keras
    primitives) and [parse] are collaborators of the file: they appear here as
    the [Framework] interface, and the results about the graph hold for every
    implementation of it.  A reference implementation is given further down
    and serves the concrete examples. *)

From Stdlib Require Import ZArith List String Ascii Bool Lia.
From Stdlib Require Import Floats.PrimFloat.
Import ListNotations.

Local Open Scope string_scope.
Local Open Scope list_scope.
Local Open Scope Z_scope.

Set Implicit Arguments.
#[local] Set Warnings "-inexact-float,-register-all".

(** ** Python values and exceptions *)

(** Values that [parse] can hand back and that flow, untouched, into layer
    constructors. *)
Inductive PyVal : Type :=
| PNone
| PInt (n : Z)
| PFloat (x : float)
| PStr (s : string)
| PTuple (xs : list PyVal).

(** Exception classes raised by the collaborators. *)
Inductive Exn : Type :=
| ValueError (msg : string)
| TypeError (msg : string)
| IndexError (msg : string)
| SyntaxError (msg : string)
| ArgumentError (msg : string).

(** Outcome of a call that either returns or raises. *)
Inductive Result (A : Type) : Type :=
| Ok (a : A)
| Raise (e : Exn).
Arguments Ok {A} a.
Arguments Raise {A} e.

Definition is_ok {A} (r : Result A) : bool :=
  match r with Ok _ => true | Raise _ => false end.

(** Sequencing of calls that may raise: the first exception ends the run. *)
Definition and_then {A B} (r : Result A) (k : A -> Result B) : Result B :=
  match r with
  | Ok a => k a
  | Raise e => Raise e
  end.

Notation "x <~ c ;; k" := (and_then c (fun x => k))
  (at level 61, c at next level, right associativity).

(** ** The flags record read by [model] *)

Record Flags : Type := {
  desired_samples : Z;
  batch_size : Z;
  label_count : Z;
  (* feature extraction, passed through to SpeechFeatures *)
  window_size_ms : PyVal;
  window_stride_ms : PyVal;
  sample_rate : PyVal;
  use_tf_fft : PyVal;
  preemph : PyVal;
  window_type : PyVal;
  feature_type : PyVal;
  mel_num_bins : PyVal;
  mel_lower_edge_hertz : PyVal;
  mel_upper_edge_hertz : PyVal;
  mel_non_zero_only : PyVal;
  fft_magnitude_squared : PyVal;
  dct_num_features : PyVal;
  (* the options of model_parameters *)
  cnn_filters : string;
  cnn_kernel_size : string;
  cnn_act : string;
  cnn_dilation_rate : string;
  cnn_strides : string;
  gru_units : string;
  return_sequences : string;
  stateful : Z;
  dropout1 : float;
  units1 : string;
  act1 : string
}.

(** ** Layers, symbolic tensors and models *)

Module speech_features.
(** Keyword arguments of [speech_features.SpeechFeatures]. *)
Record Params : Type := {
  frame_size_ms : PyVal;
  frame_step_ms : PyVal;
  sample_rate : PyVal;
  use_tf_fft : PyVal;
  preemph : PyVal;
  window_type : PyVal;
  feature_type : PyVal;
  mel_num_bins : PyVal;
  mel_lower_edge_hertz : PyVal;
  mel_upper_edge_hertz : PyVal;
  mel_non_zero_only : PyVal;
  fft_magnitude_squared : PyVal;
  dct_num_features : PyVal
}.
End speech_features.

(** A static tensor shape, batch axis first. *)
Definition Shape : Type := list Z.

(** Layer specifications: an op type with the arguments [model] passes.
    [activation = None] in [Dense] means the keyword was not given. *)
Inductive Layer : Type :=
| InputLayer (shape : list Z) (batch_size : Z)
| SpeechFeatures (p : speech_features.Params)
| ExpandDims
| Conv2D (filters kernel_size activation dilation_rate strides : PyVal)
| Flatten
| Stream (cell : Layer)
| Reshape (target_shape : list Z)
| GRU (units return_sequences : PyVal) (stateful : Z)
| Dropout (rate : float)
| Dense (units : PyVal) (activation : option PyVal).

(** A symbolic tensor: its shape and the chain of layers that produced it,
    input layer first. *)
Record Tensor : Type := {
  shape : Shape;
  history : list Layer
}.

(** [tf.keras.Model(inputs, outputs)]. *)
Record KerasModel : Type := {
  inputs : Tensor;
  outputs : Tensor
}.

(** The layer graph of a model, in construction order. *)
Definition layers (m : KerasModel) : list Layer := history (outputs m).

(** ** The collaborators *)

(** [parse] is [kws_streaming.models.utils.parse]; [layer_shape l s] builds
    layer [l] and calls it on an input of shape [s], returning the output shape
    or raising. *)
Class Framework : Type := {
  parse : string -> Result (list PyVal);
  layer_shape : Layer -> Shape -> Result Shape
}.

(** ** A state-and-exception monad over the flags object

    [flags] is a mutable namespace shared with the caller; computations thread
    it explicitly so that a write to it would show in the final state. *)

Definition M (A : Type) : Type := Flags -> Flags * Result A.

Definition ret {A} (a : A) : M A := fun fl => (fl, Ok a).

Definition bind {A B} (c : M A) (k : A -> M B) : M B :=
  fun fl =>
    let (fl', r) := c fl in
    match r with
    | Ok a => k a fl'
    | Raise e => (fl', Raise e)
    end.

Definition getattr {A} (field : Flags -> A) : M A := fun fl => (fl, Ok (field fl)).

Definition setattr (update : Flags -> Flags) : M unit := fun fl => (update fl, Ok tt).

Definition lift {A} (r : Result A) : M A := fun fl => (fl, r).

Notation "x <- c ;; k" := (bind c (fun x => k))
  (at level 61, c at next level, right associativity).

(** What a computation returns (or raises) and the flags it leaves behind. *)
Definition returns {A} (c : M A) (fl : Flags) : Result A := snd (c fl).
Definition final_flags {A} (c : M A) (fl : Flags) : Flags := fst (c fl).

(** Python's [zip] over five sequences: stops at the shortest. *)
Fixpoint zip5 {A B C D E} (a : list A) (b : list B) (c : list C) (d : list D) (e : list E)
  : list (A * B * C * D * E) :=
  match a, b, c, d, e with
  | x :: a', y :: b', z :: c', u :: d', v :: e' => (x, y, z, u, v) :: zip5 a' b' c' d' e'
  | _, _, _, _, _ => []
  end.

(** Python's [zip] over two sequences. *)
Definition zip {A B} (a : list A) (b : list B) : list (A * B) := combine a b.

(** [shape[i]] on a tensor shape. *)
Definition getitem (s : Shape) (i : nat) : Result Z :=
  match nth_error s i with
  | Some d => Ok d
  | None => Raise (IndexError "list index out of range")
  end.

(** [tf.keras.layers.Input(shape=..., batch_size=...)]. *)
Definition Input (shape : list Z) (batch_size : Z) : Tensor :=
  {| shape := batch_size :: shape; history := [InputLayer shape batch_size] |}.

(** A [for x in xs: net = body(x, net)] loop. *)
Fixpoint for_each {A} (xs : list A) (body : A -> Tensor -> M Tensor) (net : Tensor) : M Tensor :=
  match xs with
  | [] => ret net
  | x :: xs' => net' <- body x net ;; for_each xs' body net'
  end.

Section Model.
Context {fw : Framework}.

(** Building layer [l] and calling it on [net]: the output tensor extends
    the history of [net] by [l], unless the framework raises. *)
Definition apply_layer (l : Layer) (net : Tensor) : Result Tensor :=
  match layer_shape l (shape net) with
  | Ok s => Ok {| shape := s; history := history net ++ [l] |}
  | Raise e => Raise e
  end.

(** [layer(net)] as a step of the construction. *)
Definition call (l : Layer) (net : Tensor) : M Tensor := lift (apply_layer l net).

(** The keyword arguments of the SpeechFeatures call, crnn.py lines 116-129. *)
Definition speech_features_kwargs (flags : Flags) : speech_features.Params :=
  {| speech_features.frame_size_ms := window_size_ms flags;
     speech_features.frame_step_ms := window_stride_ms flags;
     speech_features.sample_rate := sample_rate flags;
     speech_features.use_tf_fft := use_tf_fft flags;
     speech_features.preemph := preemph flags;
     speech_features.window_type := window_type flags;
     speech_features.feature_type := feature_type flags;
     speech_features.mel_num_bins := mel_num_bins flags;
     speech_features.mel_lower_edge_hertz := mel_lower_edge_hertz flags;
     speech_features.mel_upper_edge_hertz := mel_upper_edge_hertz flags;
     speech_features.mel_non_zero_only := mel_non_zero_only flags;
     speech_features.fft_magnitude_squared := fft_magnitude_squared flags;
     speech_features.dct_num_features := dct_num_features flags |}.

(** Body of the convolution loop, crnn.py lines 138-145. *)
Definition conv_body (cfg : PyVal * PyVal * PyVal * PyVal * PyVal) (net : Tensor) : M Tensor :=
  let '(filters, kernel_size, activation, dilation_rate, strides) := cfg in
  call (Stream (Conv2D filters kernel_size activation dilation_rate strides)) net.

(** Body of the recurrent loop, crnn.py lines 155-158. *)
Definition gru_body (cfg : PyVal * PyVal) (net : Tensor) : M Tensor :=
  let '(units, return_sequences) := cfg in
  st <- getattr stateful ;;
  call (GRU units return_sequences st) net.

(** Body of the hidden dense loop, crnn.py line 164. *)
Definition dense_body (cfg : PyVal * PyVal) (net : Tensor) : M Tensor :=
  let '(units, activation) := cfg in
  call (Dense units (Some activation)) net.

(** Lines 147-151: collapse the feature and channel axes. *)
Definition reshape_block (net : Tensor) : M Tensor :=
  let shape := shape net in
  feature <- lift (getitem shape 2) ;;
  channels <- lift (getitem shape 3) ;;
  call (Reshape [-1; feature * channels]) net.

(** [model(flags)], crnn.py lines 98-167.  The collaborators are handed values
    read from the flags (strings and numbers), never the flags object. *)
Definition model : M KerasModel :=
  samples <- getattr desired_samples ;;
  batch <- getattr batch_size ;;
  let input_audio := Input [samples] batch in
  kwargs <- getattr speech_features_kwargs ;;
  net <- call (SpeechFeatures kwargs) input_audio ;;
  net <- call ExpandDims net ;;
  s <- getattr cnn_filters ;; filters <- lift (parse s) ;;
  s <- getattr cnn_kernel_size ;; kernel_size <- lift (parse s) ;;
  s <- getattr cnn_act ;; activation <- lift (parse s) ;;
  s <- getattr cnn_dilation_rate ;; dilation_rate <- lift (parse s) ;;
  s <- getattr cnn_strides ;; strides <- lift (parse s) ;;
  net <- for_each (zip5 filters kernel_size activation dilation_rate strides) conv_body net ;;
  net <- reshape_block net ;;
  s <- getattr gru_units ;; units <- lift (parse s) ;;
  s <- getattr return_sequences ;; seqs <- lift (parse s) ;;
  net <- for_each (zip units seqs) gru_body net ;;
  net <- call (Stream Flatten) net ;;
  rate <- getattr dropout1 ;;
  net <- call (Dropout rate) net ;;
  s <- getattr units1 ;; units <- lift (parse s) ;;
  s <- getattr act1 ;; acts <- lift (parse s) ;;
  net <- for_each (zip units acts) dense_body net ;;
  n <- getattr label_count ;;
  net <- call (Dense (PInt n) None) net ;;
  ret {| inputs := input_audio; outputs := net |}.

(** The hyperparameter strings handed to [parse], in evaluation order. *)
Definition hyper_strings (flags : Flags) : list string :=
  [cnn_filters flags; cnn_kernel_size flags; cnn_act flags; cnn_dilation_rate flags;
   cnn_strides flags; gru_units flags; return_sequences flags; units1 flags; act1 flags].

(** ** Specification vocabulary *)

(** The layer that an iteration of each loop builds from one zipped
    configuration. *)
Definition conv_layer (cfg : PyVal * PyVal * PyVal * PyVal * PyVal) : Layer :=
  let '(filters, kernel_size, activation, dilation_rate, strides) := cfg in
  Stream (Conv2D filters kernel_size activation dilation_rate strides).

Definition gru_layer (st : Z) (cfg : PyVal * PyVal) : Layer :=
  GRU (fst cfg) (snd cfg) st.

Definition dense_layer (cfg : PyVal * PyVal) : Layer :=
  Dense (fst cfg) (Some (snd cfg)).

(** Calling a list of layers one after the other. *)
Fixpoint run_layers (ls : list Layer) (net : Tensor) : Result Tensor :=
  match ls with
  | [] => Ok net
  | l :: ls' =>
      match apply_layer l net with
      | Ok net' => run_layers ls' net'
      | Raise e => Raise e
      end
  end.

(** ** The first failure of a run

    The run of [model] up to each stage, and the step at which it raises. *)

(** [parse] raises [e] on a string of the sequence and returns on all the
    strings before it. *)
Definition first_raise (strings : list string) (e : Exn) : Prop :=
  exists before s after,
    strings = before ++ s :: after
    /\ (forall s', In s' before -> is_ok (parse s') = true)
    /\ parse s = Raise e.

(** The feature front end is built: [net] is the expand-dims output. *)
Definition built_features (flags : Flags) (net : Tensor) : Prop :=
  exists net0,
    apply_layer (SpeechFeatures (speech_features_kwargs flags))
                (Input [desired_samples flags] (batch_size flags)) = Ok net0
    /\ apply_layer ExpandDims net0 = Ok net.

(** The five convolution strings are parsed after the front end is built. *)
Definition parsed_conv (flags : Flags) (net : Tensor) (fs ks acts ds ss : list PyVal) : Prop :=
  built_features flags net
  /\ parse (cnn_filters flags) = Ok fs
  /\ parse (cnn_kernel_size flags) = Ok ks
  /\ parse (cnn_act flags) = Ok acts
  /\ parse (cnn_dilation_rate flags) = Ok ds
  /\ parse (cnn_strides flags) = Ok ss.

(** The convolution loop has run: [conv] is its output. *)
Definition built_conv (flags : Flags) (conv : Tensor) : Prop :=
  exists net fs ks acts ds ss,
    parsed_conv flags net fs ks acts ds ss
    /\ run_layers (map conv_layer (zip5 fs ks acts ds ss)) net = Ok conv.

(** The Reshape layer is built: [reshaped] is its output. *)
Definition built_reshaped (flags : Flags) (reshaped : Tensor) : Prop :=
  exists conv feature channels,
    built_conv flags conv
    /\ getitem (shape conv) 2 = Ok feature
    /\ getitem (shape conv) 3 = Ok channels
    /\ apply_layer (Reshape [-1; feature * channels]) conv = Ok reshaped.

(** The two recurrent strings are parsed after the Reshape is built. *)
Definition parsed_gru (flags : Flags) (reshaped : Tensor) (gu rs : list PyVal) : Prop :=
  built_reshaped flags reshaped
  /\ parse (gru_units flags) = Ok gu
  /\ parse (return_sequences flags) = Ok rs.

(** The recurrent loop has run: [gru] is its output. *)
Definition built_gru (flags : Flags) (gru : Tensor) : Prop :=
  exists reshaped gu rs,
    parsed_gru flags reshaped gu rs
    /\ run_layers (map (gru_layer (stateful flags)) (zip gu rs)) reshaped = Ok gru.

(** Flatten and Dropout are built: [dropped] is the Dropout output. *)
Definition built_dropped (flags : Flags) (dropped : Tensor) : Prop :=
  exists gru flat,
    built_gru flags gru
    /\ apply_layer (Stream Flatten) gru = Ok flat
    /\ apply_layer (Dropout (dropout1 flags)) flat = Ok dropped.

(** The two hidden strings are parsed after the Dropout is built. *)
Definition parsed_hidden (flags : Flags) (dropped : Tensor) (u1 a1 : list PyVal) : Prop :=
  built_dropped flags dropped
  /\ parse (units1 flags) = Ok u1
  /\ parse (act1 flags) = Ok a1.

(** The hidden dense loop has run: [hidden] is its output. *)
Definition built_hidden (flags : Flags) (hidden : Tensor) : Prop :=
  exists dropped u1 a1,
    parsed_hidden flags dropped u1 a1
    /\ run_layers (map dense_layer (zip u1 a1)) dropped = Ok hidden.

(** [raises_first flags e]: some step of [model flags] raises [e] and every
    step before it, in the order of the source, returns.  One constructor per
    step (the strings of one [zip] and the layers of one loop taken
    together). *)
Inductive raises_first (flags : Flags) (e : Exn) : Prop :=
| fail_features :
    apply_layer (SpeechFeatures (speech_features_kwargs flags))
                (Input [desired_samples flags] (batch_size flags)) = Raise e ->
    raises_first flags e
| fail_expand_dims net0 :
    apply_layer (SpeechFeatures (speech_features_kwargs flags))
                (Input [desired_samples flags] (batch_size flags)) = Ok net0 ->
    apply_layer ExpandDims net0 = Raise e ->
    raises_first flags e
| fail_conv_string net :
    built_features flags net ->
    first_raise [cnn_filters flags; cnn_kernel_size flags; cnn_act flags;
                 cnn_dilation_rate flags; cnn_strides flags] e ->
    raises_first flags e
| fail_conv_layer net fs ks acts ds ss :
    parsed_conv flags net fs ks acts ds ss ->
    run_layers (map conv_layer (zip5 fs ks acts ds ss)) net = Raise e ->
    raises_first flags e
| fail_feature_axis conv :
    built_conv flags conv ->
    getitem (shape conv) 2 = Raise e ->
    raises_first flags e
| fail_channel_axis conv feature :
    built_conv flags conv ->
    getitem (shape conv) 2 = Ok feature ->
    getitem (shape conv) 3 = Raise e ->
    raises_first flags e
| fail_reshape conv feature channels :
    built_conv flags conv ->
    getitem (shape conv) 2 = Ok feature ->
    getitem (shape conv) 3 = Ok channels ->
    apply_layer (Reshape [-1; feature * channels]) conv = Raise e ->
    raises_first flags e
| fail_gru_string reshaped :
    built_reshaped flags reshaped ->
    first_raise [gru_units flags; return_sequences flags] e ->
    raises_first flags e
| fail_gru_layer reshaped gu rs :
    parsed_gru flags reshaped gu rs ->
    run_layers (map (gru_layer (stateful flags)) (zip gu rs)) reshaped = Raise e ->
    raises_first flags e
| fail_flatten gru :
    built_gru flags gru ->
    apply_layer (Stream Flatten) gru = Raise e ->
    raises_first flags e
| fail_dropout gru flat :
    built_gru flags gru ->
    apply_layer (Stream Flatten) gru = Ok flat ->
    apply_layer (Dropout (dropout1 flags)) flat = Raise e ->
    raises_first flags e
| fail_hidden_string dropped :
    built_dropped flags dropped ->
    first_raise [units1 flags; act1 flags] e ->
    raises_first flags e
| fail_hidden_layer dropped u1 a1 :
    parsed_hidden flags dropped u1 a1 ->
    run_layers (map dense_layer (zip u1 a1)) dropped = Raise e ->
    raises_first flags e
| fail_logits hidden :
    built_hidden flags hidden ->
    apply_layer (Dense (PInt (label_count flags)) None) hidden = Raise e ->
    raises_first flags e.

(** The intermediate values of one successful run of [model]. *)
Record Trace : Type := {
  tr_filters : list PyVal;
  tr_kernel_size : list PyVal;
  tr_activation : list PyVal;
  tr_dilation_rate : list PyVal;
  tr_strides : list PyVal;
  tr_gru_units : list PyVal;
  tr_return_sequences : list PyVal;
  tr_units1 : list PyVal;
  tr_act1 : list PyVal;
  tr_feature : Z;
  tr_channels : Z;
  net_features : Tensor;
  net_expanded : Tensor;
  net_conv : Tensor;
  net_reshaped : Tensor;
  net_gru : Tensor;
  net_flat : Tensor;
  net_dropped : Tensor;
  net_hidden : Tensor;
  net_logits : Tensor
}.

(** [explains flags m tr]: every step of [model flags] succeeded with the
    values recorded in [tr], and [m] is the model returned. *)
Record explains (flags : Flags) (m : KerasModel) (tr : Trace) : Prop := {
  ex_features :
    apply_layer (SpeechFeatures (speech_features_kwargs flags))
                (Input [desired_samples flags] (batch_size flags)) = Ok (net_features tr);
  ex_expanded : apply_layer ExpandDims (net_features tr) = Ok (net_expanded tr);
  ex_filters : parse (cnn_filters flags) = Ok (tr_filters tr);
  ex_kernel_size : parse (cnn_kernel_size flags) = Ok (tr_kernel_size tr);
  ex_activation : parse (cnn_act flags) = Ok (tr_activation tr);
  ex_dilation_rate : parse (cnn_dilation_rate flags) = Ok (tr_dilation_rate tr);
  ex_strides : parse (cnn_strides flags) = Ok (tr_strides tr);
  ex_conv :
    run_layers (map conv_layer (zip5 (tr_filters tr) (tr_kernel_size tr) (tr_activation tr)
                                     (tr_dilation_rate tr) (tr_strides tr)))
               (net_expanded tr) = Ok (net_conv tr);
  ex_feature : getitem (shape (net_conv tr)) 2 = Ok (tr_feature tr);
  ex_channels : getitem (shape (net_conv tr)) 3 = Ok (tr_channels tr);
  ex_reshaped :
    apply_layer (Reshape [-1; tr_feature tr * tr_channels tr]) (net_conv tr)
    = Ok (net_reshaped tr);
  ex_gru_units : parse (gru_units flags) = Ok (tr_gru_units tr);
  ex_return_sequences : parse (return_sequences flags) = Ok (tr_return_sequences tr);
  ex_gru :
    run_layers (map (gru_layer (stateful flags))
                    (zip (tr_gru_units tr) (tr_return_sequences tr)))
               (net_reshaped tr) = Ok (net_gru tr);
  ex_flat : apply_layer (Stream Flatten) (net_gru tr) = Ok (net_flat tr);
  ex_dropped : apply_layer (Dropout (dropout1 flags)) (net_flat tr) = Ok (net_dropped tr);
  ex_units1 : parse (units1 flags) = Ok (tr_units1 tr);
  ex_act1 : parse (act1 flags) = Ok (tr_act1 tr);
  ex_hidden :
    run_layers (map dense_layer (zip (tr_units1 tr) (tr_act1 tr))) (net_dropped tr)
    = Ok (net_hidden tr);
  ex_logits :
    apply_layer (Dense (PInt (label_count flags)) None) (net_hidden tr) = Ok (net_logits tr);
  ex_model :
    m = {| inputs := Input [desired_samples flags] (batch_size flags);
           outputs := net_logits tr |}
}.

(** What [model] returns, written as one expression over its collaborators;
    [model_run] below proves it equal to the run of [model]. *)
Definition model_result (flags : Flags) : Result KerasModel :=
  let input_audio := Input [desired_samples flags] (batch_size flags) in
  match apply_layer (SpeechFeatures (speech_features_kwargs flags)) input_audio with
  | Raise e => Raise e | Ok net =>
  match apply_layer ExpandDims net with
  | Raise e => Raise e | Ok net =>
  match parse (cnn_filters flags) with
  | Raise e => Raise e | Ok filters =>
  match parse (cnn_kernel_size flags) with
  | Raise e => Raise e | Ok kernel_size =>
  match parse (cnn_act flags) with
  | Raise e => Raise e | Ok activation =>
  match parse (cnn_dilation_rate flags) with
  | Raise e => Raise e | Ok dilation_rate =>
  match parse (cnn_strides flags) with
  | Raise e => Raise e | Ok strides =>
  match run_layers (map conv_layer (zip5 filters kernel_size activation dilation_rate strides))
                   net with
  | Raise e => Raise e | Ok net =>
  match getitem (shape net) 2 with
  | Raise e => Raise e | Ok feature =>
  match getitem (shape net) 3 with
  | Raise e => Raise e | Ok channels =>
  match apply_layer (Reshape [-1; feature * channels]) net with
  | Raise e => Raise e | Ok net =>
  match parse (gru_units flags) with
  | Raise e => Raise e | Ok units =>
  match parse (return_sequences flags) with
  | Raise e => Raise e | Ok seqs =>
  match run_layers (map (gru_layer (stateful flags)) (zip units seqs)) net with
  | Raise e => Raise e | Ok net =>
  match apply_layer (Stream Flatten) net with
  | Raise e => Raise e | Ok net =>
  match apply_layer (Dropout (dropout1 flags)) net with
  | Raise e => Raise e | Ok net =>
  match parse (units1 flags) with
  | Raise e => Raise e | Ok hidden =>
  match parse (act1 flags) with
  | Raise e => Raise e | Ok acts =>
  match run_layers (map dense_layer (zip hidden acts)) net with
  | Raise e => Raise e | Ok net =>
  match apply_layer (Dense (PInt (label_count flags)) None) net with
  | Raise e => Raise e | Ok net =>
  Ok {| inputs := input_audio; outputs := net |}
  end end end end end end end end end end end end end end end end end end end end.

End Model.

(** Counting the layers of one kind in a graph. *)
Definition is_conv (l : Layer) : bool :=
  match l with Stream (Conv2D _ _ _ _ _) => true | _ => false end.

Definition is_gru (l : Layer) : bool :=
  match l with GRU _ _ _ => true | _ => false end.

Definition is_dense (l : Layer) : bool :=
  match l with Dense _ _ => true | _ => false end.

Definition count (p : Layer -> bool) (ls : list Layer) : nat := List.length (filter p ls).

(** A computation that leaves the flags object as it found it. *)
Definition readonly {A} (c : M A) : Prop := forall fl, final_flags c fl = fl.

(** ** Option registration *)

Module argparse.

(** The [type=] converters used by the file. *)
Inductive ArgType : Type := type_str | type_int | type_float.

(** One registered option.  [choices] is argparse's only check on a value
    besides the conversion by [type]; it is unset unless the keyword is
    given. *)
Record Argument : Type := {
  name : string;
  type : ArgType;
  default : PyVal;
  help : string;
  choices : option (list PyVal)
}.

(** The parser's registry of options, in registration order. *)
Definition ArgumentParser : Type := list Argument.

(** Whether an option string is registered already. *)
Definition registered (parser : ArgumentParser) (n : string) : bool :=
  existsb (fun a => String.eqb (name a) n) parser.

(** The message of argparse's conflict error. *)
Definition conflict (n : string) : string :=
  "argument " ++ n ++ ": conflicting option string: " ++ n.

(** [parser.add_argument(name, type=..., default=..., help=..., choices=...)]
    on a parser with the default conflict handler: an option string that is
    registered already raises ArgumentError, otherwise the option is appended
    to the registry.  [choices = None] stands for the keyword left out. *)
Definition add_argument (name : string) (type : ArgType) (default : PyVal) (help : string)
           (choices : option (list PyVal)) (parser : ArgumentParser)
  : Result ArgumentParser :=
  if registered parser name then Raise (ArgumentError (conflict name))
  else Ok (parser ++ [{| name := name; type := type; default := default; help := help;
                         choices := choices |}]).

(** The registered default of an option, by name. *)
Definition get_default (parser : ArgumentParser) (n : string) : option PyVal :=
  match find (fun a => String.eqb (name a) n) parser with
  | Some a => Some (default a)
  | None => None
  end.

End argparse.

Import argparse.

(** [model_parameters(parser_nn)], crnn.py lines 25-95: eleven calls of
    [add_argument], none with the [choices] keyword; the first call that
    raises ends the function. *)
Definition model_parameters (parser_nn : ArgumentParser) : Result ArgumentParser :=
  parser_nn <~ add_argument "--cnn_filters" type_str
    (PStr "64,64,64,64,64,64,128")
    "Number of output filters in the convolution layers" None parser_nn ;;
  parser_nn <~ add_argument "--cnn_kernel_size" type_str
    (PStr "(3,3),(5,3),(5,3),(5,3),(5,2),(5,1),(5,1)")
    "Heights and widths of the 2D convolution window" None parser_nn ;;
  parser_nn <~ add_argument "--cnn_act" type_str
    (PStr "'relu','selu','selu','selu','selu','selu','selu'")
    "Activation function in the convolution layers" None parser_nn ;;
  parser_nn <~ add_argument "--cnn_dilation_rate" type_str
    (PStr "(1,1),(1,1),(2,1),(1,1),(2,1),(1,1),(2,1)")
    "Dilation rate to use for dilated convolutions" None parser_nn ;;
  parser_nn <~ add_argument "--cnn_strides" type_str
    (PStr "(1,1),(1,1),(1,1),(1,1),(1,1),(1,1),(1,1)")
    "Strides of the convolution layers along the height and width" None parser_nn ;;
  parser_nn <~ add_argument "--gru_units" type_str
    (PStr "512")
    "Output space dimensionality of gru layer" None parser_nn ;;
  parser_nn <~ add_argument "--return_sequences" type_str
    (PStr "1")
    "Whether to return the last output in the output sequence,or the full sequence"
    None parser_nn ;;
  parser_nn <~ add_argument "--stateful" type_int
    (PStr "0")
    "If True, the last state for each sample at index iin a batch will be used as initial state for the sample of index i in the following batch"
    None parser_nn ;;
  parser_nn <~ add_argument "--dropout1" type_float
    (PFloat 0.1%float)
    "Percentage of data dropped" None parser_nn ;;
  parser_nn <~ add_argument "--units1" type_str
    (PStr "")
    "Number of units in the last set of hidden layers" None parser_nn ;;
  parser_nn <~ add_argument "--act1" type_str
    (PStr "")
    "Activation function of the last set of hidden layers" None parser_nn ;;
  Ok parser_nn.

(** Registering a list of options one after the other. *)
Fixpoint register (args : list Argument) (parser : ArgumentParser) : Result ArgumentParser :=
  match args with
  | [] => Ok parser
  | a :: args' =>
      parser' <~ add_argument (name a) (type a) (default a) (help a) (choices a) parser ;;
      register args' parser'
  end.

(** A flags record carries the defaults registered by [model_parameters] on a
    fresh parser: each string option holds its registered default; [stateful]
    holds the integer that the [int] converter makes of the registered default
    ['0']; [dropout1] holds the registered float. *)
Definition has_default_hyperparameters (flags : Flags) : Prop :=
  exists registry,
  model_parameters [] = Ok registry /\
  get_default registry "--cnn_filters" = Some (PStr (cnn_filters flags)) /\
  get_default registry "--cnn_kernel_size" = Some (PStr (cnn_kernel_size flags)) /\
  get_default registry "--cnn_act" = Some (PStr (cnn_act flags)) /\
  get_default registry "--cnn_dilation_rate" = Some (PStr (cnn_dilation_rate flags)) /\
  get_default registry "--cnn_strides" = Some (PStr (cnn_strides flags)) /\
  get_default registry "--gru_units" = Some (PStr (gru_units flags)) /\
  get_default registry "--return_sequences" = Some (PStr (return_sequences flags)) /\
  (get_default registry "--stateful" = Some (PStr "0") /\ stateful flags = 0) /\
  get_default registry "--dropout1" = Some (PFloat (dropout1 flags)) /\
  get_default registry "--units1" = Some (PStr (units1 flags)) /\
  get_default registry "--act1" = Some (PStr (act1 flags)).

(** ** Shape rules of the Keras primitives

    Shape inference of the [tf.keras] layers that [model] uses, as the Keras
    documentation gives it.  The layers are not part of the file: results on
    shapes take these rules as hypotheses on the framework. *)

Module keras.

(** Number of elements of a shape. *)
Definition prod (dims : list Z) : Z := fold_right Z.mul 1 dims.

(** Product of the given dimensions of a target shape. *)
Definition known (target : list Z) : Z :=
  prod (filter (fun d => 0 <=? d) target).

(** How many dimensions of a target shape are left to infer. *)
Definition unknowns (target : list Z) : nat :=
  List.length (filter (fun d => d <? 0) target).

(** [Reshape._fix_unknown_dimension]: a negative entry of the target stands
    for the one dimension inferred from the size of the input. *)
Definition fix_unknown_dimension (input_shape target : list Z) : Result (list Z) :=
  let original := prod input_shape in
  match unknowns target with
  | O =>
      if original =? known target then Ok target
      else Raise (ValueError "total size of new array must be unchanged")
  | S O =>
      if (known target =? 0) || negb (original mod known target =? 0)
      then Raise (ValueError "total size of new array must be unchanged")
      else Ok (map (fun d => if d <? 0 then original / known target else d) target)
  | _ => Raise (ValueError "Can only specify one unknown dimension.")
  end.

(** Output shape of [Reshape(target_shape)]: the batch axis is kept. *)
Definition reshape_shape (target : list Z) (s : Shape) : Result Shape :=
  match s with
  | [] => Raise (ValueError "Reshape expects a batch axis")
  | b :: rest =>
      match fix_unknown_dimension rest target with
      | Ok dims => Ok (b :: dims)
      | Raise e => Raise e
      end
  end.

(** Output shape of [Flatten]: everything after the batch axis is merged. *)
Definition flatten_shape (s : Shape) : Result Shape :=
  match s with
  | [] => Raise (ValueError "Flatten expects a batch axis")
  | b :: rest => Ok [b; prod rest]
  end.

(** Output shape of [Dense(units)]: the last axis becomes [units]. *)
Definition dense_shape (units : PyVal) (s : Shape) : Result Shape :=
  match units with
  | PInt n =>
      if (2 <=? List.length s)%nat then Ok (removelast s ++ [n])
      else Raise (ValueError "Dense expects min_ndim=2")
  | _ => Raise (TypeError "units must be an integer")
  end.

(** Output length of a convolution along one axis, padding 'valid'. *)
Definition conv_output_length (input size dilation stride : Z) : Result Z :=
  let effective := (size - 1) * dilation + 1 in
  if (0 <? size) && (0 <? dilation) && (0 <? stride) then
    if effective <=? input then Ok ((input - effective) / stride + 1)
    else Raise (ValueError "Negative dimension size")
  else Raise (ValueError "kernel_size, dilation_rate and strides must be positive").

(** Output shape of [Conv2D] on [batch, rows, cols, channels]. *)
Definition conv2d_shape (filters kernel_size dilation_rate strides : PyVal) (s : Shape)
  : Result Shape :=
  match filters, kernel_size, dilation_rate, strides, s with
  | PInt f, PTuple [PInt kh; PInt kw], PTuple [PInt dh; PInt dw], PTuple [PInt sh; PInt sw],
    [b; h; w; _] =>
      match conv_output_length h kh dh sh, conv_output_length w kw dw sw with
      | Ok oh, Ok ow => Ok [b; oh; ow; f]
      | Raise e, _ => Raise e
      | _, Raise e => Raise e
      end
  | _, _, _, _, _ => Raise (ValueError "Conv2D: unsupported arguments or input rank")
  end.

End keras.

(** What the results on shapes ask of a framework: the rules describe the
    shape of an output whenever the call succeeds, and leave the framework free
    to raise. *)
Record KerasShapes (fw : Framework) : Prop := {
  (** every layer keeps the leading batch axis *)
  batch_kept : forall l b rest s',
    layer_shape l (b :: rest) = Ok s' -> exists rest', s' = b :: rest';
  (** a streamed Flatten merges everything after the batch axis *)
  flatten_rule : forall s s',
    layer_shape (Stream Flatten) s = Ok s' -> keras.flatten_shape s = Ok s';
  (** Dropout keeps the shape *)
  dropout_rule : forall rate s s',
    layer_shape (Dropout rate) s = Ok s' -> s' = s;
  (** Dense keeps the rank and sets the last axis to its units *)
  dense_rule : forall units activation s s',
    layer_shape (Dense units activation) s = Ok s' ->
    List.length s' = List.length s /\ forall n, units = PInt n -> last s' 0 = n
}.

(** ** A reference framework *)

Module Reference.

Inductive Token : Type :=
| TInt (n : Z)
| TStr (s : string)
| TOpen
| TClose
| TComma.

Inductive LexMode : Type :=
| Idle
| InInt (n : Z)
| InStr (quote : ascii) (acc : string).

Definition digit (c : ascii) : option Z :=
  let n := Z.of_nat (nat_of_ascii c) in
  if (48 <=? n) && (n <=? 57) then Some (n - 48) else None.

Definition double_quote : ascii := ascii_of_nat 34.

(** One character read outside a number or a string. *)
Definition idle_step (c : ascii) : Result (list Token * LexMode) :=
  match digit c with
  | Some d => Ok ([], InInt d)
  | None =>
      if Ascii.eqb c "(" then Ok ([TOpen], Idle)
      else if Ascii.eqb c ")" then Ok ([TClose], Idle)
      else if Ascii.eqb c "," then Ok ([TComma], Idle)
      else if Ascii.eqb c " " then Ok ([], Idle)
      else if Ascii.eqb c "'" || Ascii.eqb c double_quote then Ok ([], InStr c "")
      else Raise (SyntaxError "invalid syntax")
  end.

Definition lex_step (mode : LexMode) (c : ascii) : Result (list Token * LexMode) :=
  match mode with
  | Idle => idle_step c
  | InInt n =>
      match digit c with
      | Some d => Ok ([], InInt (10 * n + d))
      | None =>
          match idle_step c with
          | Ok (ts, mode') => Ok (TInt n :: ts, mode')
          | Raise e => Raise e
          end
      end
  | InStr q acc =>
      if Ascii.eqb c q then Ok ([TStr acc], Idle)
      else Ok ([], InStr q (acc ++ String c "")%string)
  end.

Fixpoint lex (cs : list ascii) (mode : LexMode) : Result (list Token) :=
  match cs with
  | [] =>
      match mode with
      | Idle => Ok []
      | InInt n => Ok [TInt n]
      | InStr _ _ => Raise (SyntaxError "EOL while scanning string literal")
      end
  | c :: cs' =>
      match lex_step mode c with
      | Ok (ts, mode') =>
          match lex cs' mode' with
          | Ok ts' => Ok (ts ++ ts')
          | Raise e => Raise e
          end
      | Raise e => Raise e
      end
  end.

(** Builds the sequence of values; [stack] holds the enclosing tuples under
    construction, [cur] the current one (both newest first), [need_sep]
    whether a value was just read. *)
Fixpoint assemble (ts : list Token) (stack : list (list PyVal)) (cur : list PyVal)
         (need_sep : bool) : Result (list PyVal) :=
  match ts with
  | [] =>
      match stack with
      | [] => Ok (rev cur)
      | _ :: _ => Raise (SyntaxError "unexpected EOF while parsing")
      end
  | TInt n :: ts' =>
      if need_sep then Raise (SyntaxError "invalid syntax")
      else assemble ts' stack (PInt n :: cur) true
  | TStr s :: ts' =>
      if need_sep then Raise (SyntaxError "invalid syntax")
      else assemble ts' stack (PStr s :: cur) true
  | TOpen :: ts' =>
      if need_sep then Raise (SyntaxError "invalid syntax")
      else assemble ts' (cur :: stack) [] false
  | TClose :: ts' =>
      match stack with
      | [] => Raise (SyntaxError "unmatched ')'")
      | outer :: stack' => assemble ts' stack' (PTuple (rev cur) :: outer) true
      end
  | TComma :: ts' =>
      if need_sep then assemble ts' stack cur false
      else Raise (SyntaxError "invalid syntax")
  end.

(** Modelled from the spec: [kws_streaming.models.utils.parse] is not among
    the sources.  The spec describes the hyperparameters as delimited strings
    parsed into per-layer configurations; this reference reads a
    comma-separated sequence of non-negative integers, quoted strings and
    parenthesised tuples, one entry per layer, and the empty string as no
    entry. *)
Definition parse (text : string) : Result (list PyVal) :=
  match lex (list_ascii_of_string text) Idle with
  | Ok ts => assemble ts [] [] false
  | Raise e => Raise e
  end.

(** Modelled from the spec: [speech_features.SpeechFeatures] is not among the
    sources and the spec treats it as a black box from a waveform
    [batch, samples] to features [batch, frames, features].  The reference
    frames the waveform with a window and a stride given in whole
    milliseconds and emits [dct_num_features] values per frame. *)
Definition speech_features_shape (p : speech_features.Params) (s : Shape) : Result Shape :=
  match s, speech_features.sample_rate p, speech_features.frame_size_ms p,
        speech_features.frame_step_ms p, speech_features.dct_num_features p with
  | [b; samples], PInt rate, PInt size_ms, PInt step_ms, PInt features =>
      let frame_size := rate * size_ms / 1000 in
      let frame_step := rate * step_ms / 1000 in
      if (0 <? frame_step) && (0 <? frame_size) && (frame_size <=? samples) && (0 <? features)
      then Ok [b; 1 + (samples - frame_size) / frame_step; features]
      else Raise (ValueError "SpeechFeatures: empty framing")
  | _, _, _, _, _ => Raise (ValueError "SpeechFeatures: unsupported arguments or input rank")
  end.

(** Modelled from the spec: the [GRU] wrapper of [kws_streaming.layers.gru]
    is not among the sources.  The spec calls it a recurrent layer over
    [batch, time, features]; the reference returns the whole sequence
    [batch, time, units] when [return_sequences] is non-zero and the last
    output [batch, units] otherwise. *)
Definition gru_shape (units return_sequences : PyVal) (s : Shape) : Result Shape :=
  match units, return_sequences, s with
  | PInt u, PInt r, [b; t; _] => if r =? 0 then Ok [b; u] else Ok [b; t; u]
  | _, _, _ => Raise (ValueError "GRU: unsupported arguments or input rank")
  end.

(** Modelled from the spec: the [Stream] wrapper of
    [kws_streaming.layers.stream] is not among the sources.  The spec calls
    it a layer variant for frame-by-frame inference; at graph construction
    for training the reference applies the wrapped cell as it is. *)
Fixpoint layer_shape (l : Layer) (s : Shape) : Result Shape :=
  match l with
  | InputLayer _ _ => Raise (TypeError "an input layer is not called on a tensor")
  | SpeechFeatures p => speech_features_shape p s
  | ExpandDims =>
      match s with
      | [] => Raise (ValueError "expand_dims expects a batch axis")
      | _ :: _ => Ok (s ++ [1])
      end
  | Conv2D filters kernel_size _ dilation_rate strides =>
      keras.conv2d_shape filters kernel_size dilation_rate strides s
  | Flatten => keras.flatten_shape s
  | Stream cell => layer_shape cell s
  | Reshape target => keras.reshape_shape target s
  | GRU units return_sequences _ => gru_shape units return_sequences s
  | Dropout _ => Ok s
  | Dense units _ => keras.dense_shape units s
  end.

End Reference.

Definition reference : Framework := {|
  parse := Reference.parse;
  layer_shape := Reference.layer_shape
|}.

(** ** Example flags *)

(** One-second clips at 16 kHz, 40 ms windows every 20 ms, 20 features per
    frame, with the given hyperparameter strings. *)
Definition flags_with (filters kernel_size act dilation_rate strides units seqs hidden hidden_act
                       : string) : Flags :=
  {| desired_samples := 16000; batch_size := 100; label_count := 12;
     window_size_ms := PInt 40; window_stride_ms := PInt 20; sample_rate := PInt 16000;
     use_tf_fft := PInt 0; preemph := PFloat 0%float; window_type := PStr "hann";
     feature_type := PStr "mfcc_tf"; mel_num_bins := PInt 40;
     mel_lower_edge_hertz := PFloat 20%float; mel_upper_edge_hertz := PFloat 7000%float;
     mel_non_zero_only := PInt 1; fft_magnitude_squared := PInt 0;
     dct_num_features := PInt 20;
     cnn_filters := filters; cnn_kernel_size := kernel_size; cnn_act := act;
     cnn_dilation_rate := dilation_rate; cnn_strides := strides;
     gru_units := units; return_sequences := seqs;
     stateful := 0; dropout1 := 0.1%float;
     units1 := hidden; act1 := hidden_act |}.

(** The registered defaults. *)
Definition default_flags : Flags :=
  flags_with "64,64,64,64,64,64,128"
             "(3,3),(5,3),(5,3),(5,3),(5,2),(5,1),(5,1)"
             "'relu','selu','selu','selu','selu','selu','selu'"
             "(1,1),(1,1),(2,1),(1,1),(2,1),(1,1),(2,1)"
             "(1,1),(1,1),(1,1),(1,1),(1,1),(1,1),(1,1)"
             "512" "1" "" "".

(** Two convolutions, two recurrent layers and two hidden dense layers. *)
Definition small_flags : Flags :=
  flags_with "16,32" "(3,3),(5,3)" "'relu','selu'" "(1,1),(2,1)" "(1,1),(1,1)"
             "64,32" "1,0" "128,64" "'relu','linear'".

(** Lists of unequal lengths: three filter counts for two kernels, two unit
    counts for one return_sequences entry, two hidden sizes for one
    activation. *)
Definition ragged_flags : Flags :=
  flags_with "16,32,64" "(3,3),(5,3)" "'relu','selu','selu'" "(1,1),(2,1),(1,1)"
             "(1,1),(1,1),(1,1)" "64,32" "1" "128,64" "'relu'".

(** An unbalanced parenthesis in the kernel sizes. *)
Definition malformed_flags : Flags :=
  flags_with "16,32" "(3,3),(5,3" "'relu','selu'" "(1,1),(2,1)" "(1,1),(1,1)"
             "64" "1" "" "".

(** ** Assigning hyperparameter strings *)

(** The nine string attributes that [model] hands to [parse]. *)
Inductive Hyper : Type :=
| h_cnn_filters | h_cnn_kernel_size | h_cnn_act | h_cnn_dilation_rate | h_cnn_strides
| h_gru_units | h_return_sequences | h_units1 | h_act1.

Definition get_hyper (h : Hyper) (flags : Flags) : string :=
  match h with
  | h_cnn_filters => cnn_filters flags
  | h_cnn_kernel_size => cnn_kernel_size flags
  | h_cnn_act => cnn_act flags
  | h_cnn_dilation_rate => cnn_dilation_rate flags
  | h_cnn_strides => cnn_strides flags
  | h_gru_units => gru_units flags
  | h_return_sequences => return_sequences flags
  | h_units1 => units1 flags
  | h_act1 => act1 flags
  end.

(** The flags with the nine strings replaced and every other attribute kept. *)
Definition with_strings (flags : Flags)
           (filters kernel_size act dilation_rate strides units seqs hidden hidden_act : string)
  : Flags :=
  {| desired_samples := desired_samples flags; batch_size := batch_size flags;
     label_count := label_count flags;
     window_size_ms := window_size_ms flags; window_stride_ms := window_stride_ms flags;
     sample_rate := sample_rate flags; use_tf_fft := use_tf_fft flags;
     preemph := preemph flags; window_type := window_type flags;
     feature_type := feature_type flags; mel_num_bins := mel_num_bins flags;
     mel_lower_edge_hertz := mel_lower_edge_hertz flags;
     mel_upper_edge_hertz := mel_upper_edge_hertz flags;
     mel_non_zero_only := mel_non_zero_only flags;
     fft_magnitude_squared := fft_magnitude_squared flags;
     dct_num_features := dct_num_features flags;
     cnn_filters := filters; cnn_kernel_size := kernel_size; cnn_act := act;
     cnn_dilation_rate := dilation_rate; cnn_strides := strides;
     gru_units := units; return_sequences := seqs;
     stateful := stateful flags; dropout1 := dropout1 flags;
     units1 := hidden; act1 := hidden_act |}.

(** [flags.<h> = s]: one string attribute assigned, the others kept. *)
Definition set_hyper (h : Hyper) (s : string) (flags : Flags) : Flags :=
  let pick h' := if match h, h' with
                    | h_cnn_filters, h_cnn_filters
                    | h_cnn_kernel_size, h_cnn_kernel_size
                    | h_cnn_act, h_cnn_act
                    | h_cnn_dilation_rate, h_cnn_dilation_rate
                    | h_cnn_strides, h_cnn_strides
                    | h_gru_units, h_gru_units
                    | h_return_sequences, h_return_sequences
                    | h_units1, h_units1
                    | h_act1, h_act1 => true
                    | _, _ => false
                    end
                 then s else get_hyper h' flags in
  with_strings flags (pick h_cnn_filters) (pick h_cnn_kernel_size) (pick h_cnn_act)
               (pick h_cnn_dilation_rate) (pick h_cnn_strides) (pick h_gru_units)
               (pick h_return_sequences) (pick h_units1) (pick h_act1).

(** ** More example flags *)

(** No filter counts: the convolution stack is empty. *)
Definition no_conv_flags : Flags := set_hyper h_cnn_filters "" default_flags.

(** Unit counts but no return_sequences entry: the recurrent stack is empty. *)
Definition no_gru_flags : Flags := set_hyper h_return_sequences "" default_flags.

(** Hidden sizes without activations: the hidden stack is empty. *)
Definition half_hidden_flags : Flags := set_hyper h_units1 "128,64" default_flags.

(** Clips of 100 samples, shorter than one 40 ms window, and a malformed
    filter string on top. *)
Definition tiny_clip_flags : Flags :=
  {| desired_samples := 100; batch_size := 100; label_count := 12;
     window_size_ms := PInt 40; window_stride_ms := PInt 20; sample_rate := PInt 16000;
     use_tf_fft := PInt 0; preemph := PFloat 0%float; window_type := PStr "hann";
     feature_type := PStr "mfcc_tf"; mel_num_bins := PInt 40;
     mel_lower_edge_hertz := PFloat 20%float; mel_upper_edge_hertz := PFloat 7000%float;
     mel_non_zero_only := PInt 1; fft_magnitude_squared := PInt 0;
     dct_num_features := PInt 20;
     cnn_filters := "64,(("; cnn_kernel_size := "(3,3)"; cnn_act := "'relu'";
     cnn_dilation_rate := "(1,1)"; cnn_strides := "(1,1)";
     gru_units := "512"; return_sequences := "1";
     stateful := 0; dropout1 := 0.1%float;
     units1 := ""; act1 := "" |}.

(** * Results *)

(** ** The monad *)

Lemma readonly_ret {A} (a : A) : readonly (ret a).
Proof. intros fl. reflexivity. Qed.

Lemma readonly_getattr {A} (field : Flags -> A) : readonly (getattr field).
Proof. intros fl. reflexivity. Qed.

Lemma readonly_lift {A} (r : Result A) : readonly (lift r).
Proof. intros fl. reflexivity. Qed.

Lemma readonly_bind {A B} (c : M A) (k : A -> M B) :
  readonly c -> (forall a, readonly (k a)) -> readonly (bind c k).
Proof.
  intros Hc Hk fl. unfold final_flags, bind.
  specialize (Hc fl). unfold final_flags in Hc.
  destruct (c fl) as [fl' [a | e]]; simpl in *; subst fl'.
  - apply Hk.
  - reflexivity.
Qed.

(** The monad does record writes: the frame results below are not vacuous. *)
Lemma setattr_not_readonly :
  ~ readonly (setattr (fun _ => small_flags)).
Proof.
  intros H. specialize (H default_flags). unfold final_flags, setattr in H. simpl in H.
  discriminate H.
Qed.

Lemma readonly_for_each {A} (body : A -> Tensor -> M Tensor) :
  (forall x net, readonly (body x net)) ->
  forall xs net, readonly (for_each xs body net).
Proof.
  intros Hbody xs. induction xs as [| x xs IH]; intros net; simpl.
  - apply readonly_ret.
  - apply readonly_bind; [apply Hbody | intros net'; apply IH].
Qed.

(** ** Python's zip *)

Lemma zip5_length {A B C D E} (a : list A) (b : list B) (c : list C) (d : list D)
      (e : list E) :
  List.length (zip5 a b c d e) =
  Nat.min (List.length a) (Nat.min (List.length b) (Nat.min (List.length c)
          (Nat.min (List.length d) (List.length e)))).
Proof.
  revert b c d e. induction a as [| x a IH]; intros b c d e; [reflexivity |].
  destruct b as [| y b]; [reflexivity |].
  destruct c as [| z c]; [simpl; lia |].
  destruct d as [| u d]; [simpl; lia |].
  destruct e as [| v e]; [simpl; lia |].
  simpl. rewrite IH. reflexivity.
Qed.

Lemma zip_length {A B} (a : list A) (b : list B) :
  List.length (zip a b) = Nat.min (List.length a) (List.length b).
Proof. apply length_combine. Qed.

Lemma zip5_nth_error {A B C D E} (a : list A) (b : list B) (c : list C) (d : list D)
      (e : list E) i x y z u v :
  nth_error a i = Some x -> nth_error b i = Some y -> nth_error c i = Some z ->
  nth_error d i = Some u -> nth_error e i = Some v ->
  nth_error (zip5 a b c d e) i = Some (x, y, z, u, v).
Proof.
  revert a b c d e.
  induction i as [| i IH]; intros a b c d e Ha Hb Hc Hd He;
    destruct a, b, c, d, e; simpl in *; try discriminate.
  - congruence.
  - now apply IH.
Qed.

Lemma zip_nth_error {A B} (a : list A) (b : list B) i x y :
  nth_error a i = Some x -> nth_error b i = Some y ->
  nth_error (zip a b) i = Some (x, y).
Proof.
  unfold zip. revert a b.
  induction i as [| i IH]; intros a b Ha Hb; destruct a, b; simpl in *; try discriminate.
  - congruence.
  - now apply IH.
Qed.

(** ** Counting layers *)

Lemma count_app p ls1 ls2 : count p (ls1 ++ ls2) = (count p ls1 + count p ls2)%nat.
Proof. unfold count. rewrite filter_app, length_app. reflexivity. Qed.

Lemma count_all {A} p (f : A -> Layer) xs :
  (forall x, p (f x) = true) -> count p (map f xs) = List.length xs.
Proof.
  intros H. unfold count. induction xs as [| x xs IH]; simpl; [reflexivity |].
  rewrite H. simpl. now rewrite IH.
Qed.

Lemma count_none {A} p (f : A -> Layer) xs :
  (forall x, p (f x) = false) -> count p (map f xs) = 0%nat.
Proof.
  intros H. unfold count. induction xs as [| x xs IH]; simpl; [reflexivity |].
  rewrite H. exact IH.
Qed.

Lemma conv_layer_kind cfg :
  is_conv (conv_layer cfg) = true /\ is_gru (conv_layer cfg) = false
  /\ is_dense (conv_layer cfg) = false.
Proof. destruct cfg as [[[[f k] a] d] s]. repeat split. Qed.

Lemma gru_layer_kind st cfg :
  is_conv (gru_layer st cfg) = false /\ is_gru (gru_layer st cfg) = true
  /\ is_dense (gru_layer st cfg) = false.
Proof. repeat split. Qed.

Lemma dense_layer_kind cfg :
  is_conv (dense_layer cfg) = false /\ is_gru (dense_layer cfg) = false
  /\ is_dense (dense_layer cfg) = true.
Proof. repeat split. Qed.

(** ** Layer calls and loops *)

Section Graph.
Context {fw : Framework}.

Lemma apply_layer_ok l net net' :
  apply_layer l net = Ok net' ->
  layer_shape l (shape net) = Ok (shape net') /\ history net' = history net ++ [l].
Proof.
  unfold apply_layer. destruct (layer_shape l (shape net)) as [s | e]; [| discriminate].
  intros H. injection H as <-. split; reflexivity.
Qed.

Lemma apply_layer_raise l net e :
  apply_layer l net = Raise e -> layer_shape l (shape net) = Raise e.
Proof.
  unfold apply_layer. destruct (layer_shape l (shape net)) as [s | e']; [discriminate |].
  intros H. injection H as <-. reflexivity.
Qed.

Lemma run_layers_history ls : forall net net',
  run_layers ls net = Ok net' -> history net' = history net ++ ls.
Proof.
  induction ls as [| l ls IH]; intros net net' H; simpl in H.
  - injection H as <-. now rewrite app_nil_r.
  - destruct (apply_layer l net) as [net1 |] eqn:E; [| discriminate].
    apply apply_layer_ok in E as [_ E]. rewrite (IH _ _ H), E, <- app_assoc. reflexivity.
Qed.

Lemma run_layers_raise ls : forall net e,
  run_layers ls net = Raise e -> exists l s, In l ls /\ layer_shape l s = Raise e.
Proof.
  induction ls as [| l ls IH]; intros net e H; simpl in H; [discriminate |].
  destruct (apply_layer l net) as [net1 | e1] eqn:E.
  - destruct (IH _ _ H) as (l' & s & Hin & Hs). exists l', s. split; [now right | exact Hs].
  - injection H as <-. apply apply_layer_raise in E.
    exists l, (shape net). split; [now left | exact E].
Qed.

Lemma run_layers_app ls1 ls2 net :
  run_layers (ls1 ++ ls2) net =
  match run_layers ls1 net with
  | Ok net' => run_layers ls2 net'
  | Raise e => Raise e
  end.
Proof.
  revert net. induction ls1 as [| l ls1 IH]; intros net; simpl; [reflexivity |].
  destruct (apply_layer l net); [apply IH | reflexivity].
Qed.

(** A loop whose body calls one layer per item runs the layers of its items. *)
Lemma for_each_layers {A} (body : A -> Tensor -> M Tensor) (layer_of : Flags -> A -> Layer) :
  (forall x net fl, body x net fl = (fl, apply_layer (layer_of fl x) net)) ->
  forall xs net fl,
    for_each xs body net fl = (fl, run_layers (map (layer_of fl) xs) net).
Proof.
  intros Hbody xs. induction xs as [| x xs IH]; intros net fl; simpl; [reflexivity |].
  unfold bind. rewrite Hbody.
  destruct (apply_layer (layer_of fl x) net); [apply IH | reflexivity].
Qed.

Lemma conv_loop cfgs net fl :
  for_each cfgs conv_body net fl = (fl, run_layers (map conv_layer cfgs) net).
Proof.
  apply (for_each_layers conv_body (fun _ => conv_layer)).
  intros [[[[f k] a] d] s] net0 fl0. reflexivity.
Qed.

Lemma gru_loop cfgs net fl :
  for_each cfgs gru_body net fl
  = (fl, run_layers (map (gru_layer (stateful fl)) cfgs) net).
Proof.
  apply (for_each_layers gru_body (fun fl => gru_layer (stateful fl))).
  intros [u r] net0 fl0. reflexivity.
Qed.

Lemma dense_loop cfgs net fl :
  for_each cfgs dense_body net fl = (fl, run_layers (map dense_layer cfgs) net).
Proof.
  apply (for_each_layers dense_body (fun _ => dense_layer)).
  intros [u a] net0 fl0. reflexivity.
Qed.

Lemma reshape_block_run net fl :
  reshape_block net fl =
  (fl, match getitem (shape net) 2 with
       | Ok feature =>
           match getitem (shape net) 3 with
           | Ok channels => apply_layer (Reshape [-1; feature * channels]) net
           | Raise e => Raise e
           end
       | Raise e => Raise e
       end).
Proof.
  unfold reshape_block, bind, lift, call.
  destruct (getitem (shape net) 2); [| reflexivity].
  destruct (getitem (shape net) 3); reflexivity.
Qed.

(** ** The run of [model] *)

Ltac run_step :=
  first
    [ rewrite conv_loop
    | rewrite gru_loop
    | rewrite dense_loop
    | rewrite reshape_block_run
    | match goal with
      | |- context [match ?r with Ok _ => _ | Raise _ => _ end] =>
          destruct r; [| reflexivity]
      end ];
  cbv beta iota zeta.

(** [model] leaves the flags untouched and returns [model_result]. *)
Lemma model_run flags : model flags = (flags, model_result flags).
Proof.
  unfold model, model_result, bind, getattr, call, lift, ret.
  cbv beta iota zeta.
  repeat run_step.
  reflexivity.
Qed.

Lemma model_returns flags : returns model flags = model_result flags.
Proof. unfold returns. rewrite model_run. reflexivity. Qed.

(** A model is returned exactly when every step succeeds. *)
Lemma model_explained flags m :
  returns model flags = Ok m <-> exists tr, explains flags m tr.
Proof.
  rewrite model_returns. split.
  - intros H. unfold model_result in H.
    repeat match type of H with
           | context [match ?r with Ok _ => _ | Raise _ => _ end] =>
               let E := fresh "E" in destruct r eqn:E; [| discriminate H]
           end.
    injection H as <-.
    eexists (Build_Trace _ _ _ _ _ _ _ _ _ _ _ _ _ _ _ _ _ _ _ _).
    constructor; simpl; first [eassumption | reflexivity].
  - intros [tr H]. unfold model_result.
    rewrite (ex_features H); cbv beta iota.
    rewrite (ex_expanded H); cbv beta iota.
    rewrite (ex_filters H), (ex_kernel_size H), (ex_activation H), (ex_dilation_rate H),
      (ex_strides H); cbv beta iota.
    rewrite (ex_conv H); cbv beta iota.
    rewrite (ex_feature H), (ex_channels H); cbv beta iota.
    rewrite (ex_reshaped H); cbv beta iota.
    rewrite (ex_gru_units H), (ex_return_sequences H); cbv beta iota.
    rewrite (ex_gru H); cbv beta iota.
    rewrite (ex_flat H); cbv beta iota.
    rewrite (ex_dropped H); cbv beta iota.
    rewrite (ex_units1 H), (ex_act1 H); cbv beta iota.
    rewrite (ex_hidden H); cbv beta iota.
    rewrite (ex_logits H); cbv beta iota.
    rewrite (ex_model H). reflexivity.
Qed.

(** The graph of an explained model, read off its trace. *)
Lemma explained_layers flags m tr :
  explains flags m tr ->
  layers m =
  [InputLayer [desired_samples flags] (batch_size flags);
   SpeechFeatures (speech_features_kwargs flags);
   ExpandDims]
  ++ map conv_layer (zip5 (tr_filters tr) (tr_kernel_size tr) (tr_activation tr)
                          (tr_dilation_rate tr) (tr_strides tr))
  ++ [Reshape [-1; tr_feature tr * tr_channels tr]]
  ++ map (gru_layer (stateful flags)) (zip (tr_gru_units tr) (tr_return_sequences tr))
  ++ [Stream Flatten; Dropout (dropout1 flags)]
  ++ map dense_layer (zip (tr_units1 tr) (tr_act1 tr))
  ++ [Dense (PInt (label_count flags)) None].
Proof.
  intros H. rewrite (ex_model H). unfold layers. simpl outputs.
  destruct (apply_layer_ok _ _ (ex_logits H)) as [_ ->].
  rewrite (run_layers_history _ _ (ex_hidden H)).
  destruct (apply_layer_ok _ _ (ex_dropped H)) as [_ ->].
  destruct (apply_layer_ok _ _ (ex_flat H)) as [_ ->].
  rewrite (run_layers_history _ _ (ex_gru H)).
  destruct (apply_layer_ok _ _ (ex_reshaped H)) as [_ ->].
  rewrite (run_layers_history _ _ (ex_conv H)).
  destruct (apply_layer_ok _ _ (ex_expanded H)) as [_ ->].
  destruct (apply_layer_ok _ _ (ex_features H)) as [_ ->].
  simpl history. repeat rewrite <- app_assoc. reflexivity.
Qed.

(** Layer counts of an explained model. *)
Lemma explained_counts flags m tr :
  explains flags m tr ->
  count is_conv (layers m)
  = List.length (zip5 (tr_filters tr) (tr_kernel_size tr) (tr_activation tr)
                      (tr_dilation_rate tr) (tr_strides tr))
  /\ count is_gru (layers m) = List.length (zip (tr_gru_units tr) (tr_return_sequences tr))
  /\ count is_dense (layers m) = S (List.length (zip (tr_units1 tr) (tr_act1 tr))).
Proof.
  intros H. rewrite (explained_layers H). repeat rewrite count_app.
  repeat split.
  - rewrite (count_all is_conv), (count_none is_conv), (count_none is_conv);
      try (intros x; apply conv_layer_kind); try (intros x; apply gru_layer_kind);
      try (intros x; apply dense_layer_kind).
    unfold count. simpl. lia.
  - rewrite (count_none is_gru), (count_all is_gru), (count_none is_gru);
      try (intros x; apply conv_layer_kind); try (intros x; apply gru_layer_kind);
      try (intros x; apply dense_layer_kind).
    unfold count. simpl. lia.
  - rewrite (count_none is_dense), (count_none is_dense), (count_all is_dense);
      try (intros x; apply conv_layer_kind); try (intros x; apply gru_layer_kind);
      try (intros x; apply dense_layer_kind).
    unfold count. simpl. lia.
Qed.

(** The parse results of a trace are those of the flags. *)
Lemma explained_parses flags m tr fs ks acts ds ss gu rs u1 a1 :
  explains flags m tr ->
  parse (cnn_filters flags) = Ok fs ->
  parse (cnn_kernel_size flags) = Ok ks ->
  parse (cnn_act flags) = Ok acts ->
  parse (cnn_dilation_rate flags) = Ok ds ->
  parse (cnn_strides flags) = Ok ss ->
  parse (gru_units flags) = Ok gu ->
  parse (return_sequences flags) = Ok rs ->
  parse (units1 flags) = Ok u1 ->
  parse (act1 flags) = Ok a1 ->
  tr_filters tr = fs /\ tr_kernel_size tr = ks /\ tr_activation tr = acts
  /\ tr_dilation_rate tr = ds /\ tr_strides tr = ss /\ tr_gru_units tr = gu
  /\ tr_return_sequences tr = rs /\ tr_units1 tr = u1 /\ tr_act1 tr = a1.
Proof.
  intros H H1 H2 H3 H4 H5 H6 H7 H8 H9.
  rewrite (ex_filters H) in H1. rewrite (ex_kernel_size H) in H2.
  rewrite (ex_activation H) in H3. rewrite (ex_dilation_rate H) in H4.
  rewrite (ex_strides H) in H5. rewrite (ex_gru_units H) in H6.
  rewrite (ex_return_sequences H) in H7. rewrite (ex_units1 H) in H8.
  rewrite (ex_act1 H) in H9.
  repeat split; congruence.
Qed.

(** ** The layer graph *)

(** C1: whenever [model] returns a model, its layer graph is exactly, in this
    order: the input layer, SpeechFeatures, the expand-dims step, the streaming
    Conv2D layers, one Reshape, the GRU layers, a streaming Flatten, one
    Dropout, the hidden Dense layers and a final Dense with [label_count]
    units.  There is one Conv2D per position that all five parsed convolution
    lists have, built from the entries at that position; likewise one GRU per
    common position of the two recurrent lists and one hidden Dense per common
    position of the two hidden lists.  The Reshape target is
    [(-1, feature * channels)], the two factors being axes 2 and 3 of the
    tensor that the layers before the Reshape produce from the input. *)
Theorem model_layer_sequence flags m :
  returns model flags = Ok m ->
  exists fs ks acts ds ss gu rs u1 a1 convs grus hidden conv feature channels,
    parse (cnn_filters flags) = Ok fs /\
    parse (cnn_kernel_size flags) = Ok ks /\
    parse (cnn_act flags) = Ok acts /\
    parse (cnn_dilation_rate flags) = Ok ds /\
    parse (cnn_strides flags) = Ok ss /\
    parse (gru_units flags) = Ok gu /\
    parse (return_sequences flags) = Ok rs /\
    parse (units1 flags) = Ok u1 /\
    parse (act1 flags) = Ok a1 /\
    layers m =
    [InputLayer [desired_samples flags] (batch_size flags);
     SpeechFeatures (speech_features_kwargs flags);
     ExpandDims]
    ++ convs
    ++ [Reshape [-1; feature * channels]]
    ++ grus
    ++ [Stream Flatten; Dropout (dropout1 flags)]
    ++ hidden
    ++ [Dense (PInt (label_count flags)) None] /\
    (* the convolution stack *)
    List.length convs
    = Nat.min (List.length fs) (Nat.min (List.length ks) (Nat.min (List.length acts)
              (Nat.min (List.length ds) (List.length ss)))) /\
    (forall i f k a d s,
        nth_error fs i = Some f -> nth_error ks i = Some k -> nth_error acts i = Some a ->
        nth_error ds i = Some d -> nth_error ss i = Some s ->
        nth_error convs i = Some (Stream (Conv2D f k a d s))) /\
    (* the Reshape reads the output of the convolution stack *)
    run_layers ([SpeechFeatures (speech_features_kwargs flags); ExpandDims] ++ convs)
               (Input [desired_samples flags] (batch_size flags)) = Ok conv /\
    getitem (shape conv) 2 = Ok feature /\
    getitem (shape conv) 3 = Ok channels /\
    (* the recurrent stack *)
    List.length grus = Nat.min (List.length gu) (List.length rs) /\
    (forall i u r,
        nth_error gu i = Some u -> nth_error rs i = Some r ->
        nth_error grus i = Some (GRU u r (stateful flags))) /\
    (* the hidden dense stack *)
    List.length hidden = Nat.min (List.length u1) (List.length a1) /\
    (forall i u a,
        nth_error u1 i = Some u -> nth_error a1 i = Some a ->
        nth_error hidden i = Some (Dense u (Some a))).
Proof.
  intros H. apply model_explained in H as [tr H].
  exists (tr_filters tr), (tr_kernel_size tr), (tr_activation tr), (tr_dilation_rate tr),
    (tr_strides tr), (tr_gru_units tr), (tr_return_sequences tr), (tr_units1 tr),
    (tr_act1 tr).
  exists (map conv_layer (zip5 (tr_filters tr) (tr_kernel_size tr) (tr_activation tr)
                               (tr_dilation_rate tr) (tr_strides tr))),
    (map (gru_layer (stateful flags)) (zip (tr_gru_units tr) (tr_return_sequences tr))),
    (map dense_layer (zip (tr_units1 tr) (tr_act1 tr))),
    (net_conv tr), (tr_feature tr), (tr_channels tr).
  repeat match goal with |- _ /\ _ => split end; try apply H.
  - apply (explained_layers H).
  - rewrite length_map. apply zip5_length.
  - intros i f k a d s Hf Hk Ha Hd Hs.
    rewrite nth_error_map, (zip5_nth_error _ _ _ _ _ i Hf Hk Ha Hd Hs). reflexivity.
  - simpl app. simpl run_layers. rewrite (ex_features H), (ex_expanded H).
    exact (ex_conv H).
  - rewrite length_map. apply zip_length.
  - intros i u r Hu Hr. rewrite nth_error_map, (zip_nth_error _ _ i Hu Hr). reflexivity.
  - rewrite length_map. apply zip_length.
  - intros i u a Hu Ha. rewrite nth_error_map, (zip_nth_error _ _ i Hu Ha). reflexivity.
Qed.

(** C2: each loop of [model] builds as many layers as the shortest of the
    parsed lists it zips: the convolution loop the minimum over the five
    convolution lists, the recurrent loop the minimum over units and
    return_sequences, the hidden dense loop the minimum over units1 and act1
    (the graph holds one more Dense, the final one); when the lengths agree,
    that is one layer per entry. *)
Theorem zip_truncation flags m fs ks acts ds ss gu rs u1 a1 :
  parse (cnn_filters flags) = Ok fs ->
  parse (cnn_kernel_size flags) = Ok ks ->
  parse (cnn_act flags) = Ok acts ->
  parse (cnn_dilation_rate flags) = Ok ds ->
  parse (cnn_strides flags) = Ok ss ->
  parse (gru_units flags) = Ok gu ->
  parse (return_sequences flags) = Ok rs ->
  parse (units1 flags) = Ok u1 ->
  parse (act1 flags) = Ok a1 ->
  returns model flags = Ok m ->
  let convs := count is_conv (layers m) in
  let grus := count is_gru (layers m) in
  let hidden := pred (count is_dense (layers m)) in
  convs = Nat.min (List.length fs) (Nat.min (List.length ks) (Nat.min (List.length acts)
                  (Nat.min (List.length ds) (List.length ss))))
  /\ grus = Nat.min (List.length gu) (List.length rs)
  /\ hidden = Nat.min (List.length u1) (List.length a1)
  /\ (List.length ks = List.length fs -> List.length acts = List.length fs ->
      List.length ds = List.length fs -> List.length ss = List.length fs ->
      convs = List.length fs)
  /\ (List.length rs = List.length gu -> grus = List.length gu)
  /\ (List.length a1 = List.length u1 -> hidden = List.length u1).
Proof.
  intros H1 H2 H3 H4 H5 H6 H7 H8 H9 H. apply model_explained in H as [tr H].
  destruct (explained_parses H H1 H2 H3 H4 H5 H6 H7 H8 H9)
    as (E1 & E2 & E3 & E4 & E5 & E6 & E7 & E8 & E9).
  destruct (explained_counts H) as (C1 & C2 & C3).
  rewrite E1, E2, E3, E4, E5, zip5_length in C1.
  rewrite E6, E7, zip_length in C2.
  rewrite E8, E9, zip_length in C3.
  cbv zeta. rewrite C1, C2, C3. simpl pred.
  repeat split; lia.
Qed.

(** C5: the last layer of a returned model is a Dense layer with
    [label_count] units and no activation argument, and the model's output is
    that layer's output: nothing is applied after it. *)
Theorem final_dense_logits flags m :
  returns model flags = Ok m ->
  exists before net,
    layers m = before ++ [Dense (PInt (label_count flags)) None]
    /\ apply_layer (Dense (PInt (label_count flags)) None) net = Ok (outputs m).
Proof.
  intros H. apply model_explained in H as [tr H].
  eexists _, (net_hidden tr). split.
  - rewrite (explained_layers H). repeat rewrite app_assoc. reflexivity.
  - rewrite (ex_model H). exact (ex_logits H).
Qed.

(** C8: when [units1] and [act1] parse to empty sequences, a returned model has
    no hidden Dense layer: its only Dense is the final one, and that layer is
    called on the output of the Dropout layer. *)
Theorem hidden_dense_optional flags m :
  parse (units1 flags) = Ok [] ->
  parse (act1 flags) = Ok [] ->
  returns model flags = Ok m ->
  exists before net dropped,
    layers m = before ++ [Dropout (dropout1 flags); Dense (PInt (label_count flags)) None]
    /\ apply_layer (Dropout (dropout1 flags)) net = Ok dropped
    /\ apply_layer (Dense (PInt (label_count flags)) None) dropped = Ok (outputs m)
    /\ count is_dense (layers m) = 1%nat.
Proof.
  intros Hu Ha H. apply model_explained in H as [tr H].
  assert (Eu : tr_units1 tr = []) by (pose proof (ex_units1 H); congruence).
  assert (Ea : tr_act1 tr = []) by (pose proof (ex_act1 H); congruence).
  pose proof (ex_hidden H) as Hh. rewrite Eu, Ea in Hh. simpl in Hh. injection Hh as Hh.
  exists ([InputLayer [desired_samples flags] (batch_size flags);
           SpeechFeatures (speech_features_kwargs flags); ExpandDims]
          ++ map conv_layer (zip5 (tr_filters tr) (tr_kernel_size tr) (tr_activation tr)
                                  (tr_dilation_rate tr) (tr_strides tr))
          ++ [Reshape [-1; tr_feature tr * tr_channels tr]]
          ++ map (gru_layer (stateful flags)) (zip (tr_gru_units tr) (tr_return_sequences tr))
          ++ [Stream Flatten]), (net_flat tr), (net_dropped tr).
  repeat split.
  - rewrite (explained_layers H), Eu, Ea. simpl.
    repeat (rewrite <- app_assoc; simpl). reflexivity.
  - exact (ex_dropped H).
  - rewrite (ex_model H), Hh. exact (ex_logits H).
  - destruct (explained_counts H) as (_ & _ & C). rewrite C, Eu, Ea. reflexivity.
Qed.

(** C9: every GRU layer of a returned model carries the one [stateful] value
    of the flags. *)
Theorem gru_shared_stateful flags m :
  returns model flags = Ok m ->
  forall units seqs st, In (GRU units seqs st) (layers m) -> st = stateful flags.
Proof.
  intros H units seqs st Hin. apply model_explained in H as [tr H].
  rewrite (explained_layers H) in Hin.
  repeat (apply in_app_or in Hin as [Hin | Hin]).
  - simpl in Hin. repeat (destruct Hin as [Hin | Hin]; [discriminate Hin |]). contradiction.
  - apply in_map_iff in Hin as ([[[[f k] a] d] s] & Hin & _). discriminate Hin.
  - simpl in Hin. destruct Hin as [Hin | []]. discriminate Hin.
  - apply in_map_iff in Hin as (cfg & Hin & _). unfold gru_layer in Hin. congruence.
  - simpl in Hin. repeat (destruct Hin as [Hin | Hin]; [discriminate Hin |]). contradiction.
  - apply in_map_iff in Hin as (cfg & Hin & _). discriminate Hin.
  - simpl in Hin. destruct Hin as [Hin | []]. discriminate Hin.
Qed.

(** ** The frame of [model] *)

Lemma readonly_call l net : readonly (call l net).
Proof. apply readonly_lift. Qed.

Lemma readonly_conv_body cfg net : readonly (conv_body cfg net).
Proof. destruct cfg as [[[[f k] a] d] s]. apply readonly_call. Qed.

Lemma readonly_gru_body cfg net : readonly (gru_body cfg net).
Proof.
  destruct cfg as [u r]. unfold gru_body.
  apply readonly_bind; [apply readonly_getattr | intros st; apply readonly_call].
Qed.

Lemma readonly_dense_body cfg net : readonly (dense_body cfg net).
Proof. destruct cfg as [u a]. apply readonly_call. Qed.

Lemma readonly_reshape_block net : readonly (reshape_block net).
Proof.
  unfold reshape_block.
  apply readonly_bind; [apply readonly_lift | intros feature].
  apply readonly_bind; [apply readonly_lift | intros channels].
  apply readonly_call.
Qed.

Ltac frame_step :=
  first
    [ apply readonly_getattr
    | apply readonly_lift
    | apply readonly_call
    | apply readonly_reshape_block
    | apply readonly_for_each; intros;
      first [apply readonly_conv_body | apply readonly_gru_body | apply readonly_dense_body] ].

(** C10: [model] only reads its flags: whatever it returns or raises, the
    flags record after the call is the one before it, field for field.  Every
    step is a read of an attribute, a call on values read before, or a loop of
    such calls, and sequencing keeps the frame. *)
Theorem model_leaves_flags flags : final_flags model flags = flags.
Proof.
  revert flags. change (readonly model). unfold model.
  repeat (apply readonly_bind; [frame_step | intros]).
  apply readonly_ret.
Qed.

(** ** Exceptions *)

Lemma model_needs_parses flags m s :
  model_result flags = Ok m -> In s (hyper_strings flags) -> is_ok (parse s) = true.
Proof.
  rewrite <- model_returns. intros H Hin. apply model_explained in H as [tr H].
  unfold hyper_strings in Hin. simpl in Hin.
  repeat (destruct Hin as [<- | Hin]);
    [ rewrite (ex_filters H) | rewrite (ex_kernel_size H) | rewrite (ex_activation H)
    | rewrite (ex_dilation_rate H) | rewrite (ex_strides H) | rewrite (ex_gru_units H)
    | rewrite (ex_return_sequences H) | rewrite (ex_units1 H) | rewrite (ex_act1 H)
    | contradiction ]; reflexivity.
Qed.

Ltac unpack_built :=
  repeat match goal with
         | H : built_hidden _ _ |- _ => destruct H as (? & ? & ? & H & ?)
         | H : parsed_hidden _ _ _ _ |- _ => destruct H as (H & ? & ?)
         | H : built_dropped _ _ |- _ => destruct H as (? & ? & H & ? & ?)
         | H : built_gru _ _ |- _ => destruct H as (? & ? & ? & H & ?)
         | H : parsed_gru _ _ _ _ |- _ => destruct H as (H & ? & ?)
         | H : built_reshaped _ _ |- _ => destruct H as (? & ? & ? & H & ? & ? & ?)
         | H : built_conv _ _ |- _ => destruct H as (? & ? & ? & ? & ? & ? & H & ?)
         | H : parsed_conv _ _ _ _ _ _ _ |- _ => destruct H as (H & ? & ? & ? & ? & ?)
         | H : built_features _ _ |- _ => destruct H as (? & ? & ?)
         end.

Ltac replay_ok :=
  repeat (match goal with
          | H : ?l = Ok _ |- context [match ?l with Ok _ => _ | Raise _ => _ end] =>
              rewrite H
          end; cbv beta iota).

Ltac replay_raise :=
  match goal with
  | H : ?l = Raise _ |- context [match ?l with Ok _ => _ | Raise _ => _ end] =>
      rewrite H; reflexivity
  end.

Ltac replay_strings before Heq Hbefore Hs :=
  repeat (destruct before as [| ? before];
          [ simpl in Heq; injection Heq as <-; intros; subst; rewrite Hs; reflexivity
          | simpl in Heq; injection Heq as <- Heq;
            let Hok := fresh "Hok" in
            pose proof (Hbefore _ (or_introl eq_refl)) as Hok;
            match type of Hok with
            | is_ok ?r = true => destruct r; [| discriminate Hok]
            end;
            cbv beta iota;
            let Hb := fresh "Hb" in
            assert (Hb : forall s', In s' before -> is_ok (parse s') = true)
              by (intros s' Hs'; apply Hbefore; now right);
            clear Hbefore Hok; rename Hb into Hbefore ]);
  destruct before; discriminate Heq.

(** The steps of [model] run in the order of the source and the first one
    that raises decides what [model] raises. *)
Lemma model_raises_first flags e :
  model_result flags = Raise e <-> raises_first flags e.
Proof.
  split.
  - unfold model_result. intros H.
    destruct (apply_layer (SpeechFeatures (speech_features_kwargs flags))
                          (Input [desired_samples flags] (batch_size flags)))
      as [net0 |] eqn:E0; [| injection H as <-; now apply fail_features].
    destruct (apply_layer ExpandDims net0) as [net |] eqn:E1;
      [| injection H as <-; eapply fail_expand_dims; eassumption].
    assert (Bf : built_features flags net) by (exists net0; now split).
    destruct (parse (cnn_filters flags)) as [fs |] eqn:P1;
      [| injection H as <-; eapply fail_conv_string; [exact Bf |];
         exists [], (cnn_filters flags); eexists; repeat split;
         [intros s' [] | exact P1]].
    destruct (parse (cnn_kernel_size flags)) as [ks |] eqn:P2;
      [| injection H as <-; eapply fail_conv_string; [exact Bf |];
         exists [cnn_filters flags], (cnn_kernel_size flags); eexists; repeat split;
         [intros s' Hin; simpl in Hin; intuition (subst; rewrite ?P1; reflexivity)
         | exact P2]].
    destruct (parse (cnn_act flags)) as [acts |] eqn:P3;
      [| injection H as <-; eapply fail_conv_string; [exact Bf |];
         exists [cnn_filters flags; cnn_kernel_size flags], (cnn_act flags); eexists;
         repeat split;
         [intros s' Hin; simpl in Hin; intuition (subst; rewrite ?P1, ?P2; reflexivity)
         | exact P3]].
    destruct (parse (cnn_dilation_rate flags)) as [ds |] eqn:P4;
      [| injection H as <-; eapply fail_conv_string; [exact Bf |];
         exists [cnn_filters flags; cnn_kernel_size flags; cnn_act flags],
           (cnn_dilation_rate flags); eexists; repeat split;
         [intros s' Hin; simpl in Hin;
          intuition (subst; rewrite ?P1, ?P2, ?P3; reflexivity)
         | exact P4]].
    destruct (parse (cnn_strides flags)) as [ss |] eqn:P5;
      [| injection H as <-; eapply fail_conv_string; [exact Bf |];
         exists [cnn_filters flags; cnn_kernel_size flags; cnn_act flags;
                 cnn_dilation_rate flags], (cnn_strides flags), []; repeat split;
         [intros s' Hin; simpl in Hin;
          intuition (subst; rewrite ?P1, ?P2, ?P3, ?P4; reflexivity)
         | exact P5]].
    assert (Pc : parsed_conv flags net fs ks acts ds ss) by (repeat split; assumption).
    destruct (run_layers (map conv_layer (zip5 fs ks acts ds ss)) net) as [conv |] eqn:E2;
      [| injection H as <-; eapply fail_conv_layer; eassumption].
    assert (Bc : built_conv flags conv) by (exists net, fs, ks, acts, ds, ss; now split).
    destruct (getitem (shape conv) 2) as [feature |] eqn:G2;
      [| injection H as <-; eapply fail_feature_axis; eassumption].
    destruct (getitem (shape conv) 3) as [channels |] eqn:G3;
      [| injection H as <-; eapply fail_channel_axis; eassumption].
    destruct (apply_layer (Reshape [-1; feature * channels]) conv) as [reshaped |] eqn:E3;
      [| injection H as <-; eapply fail_reshape; eassumption].
    assert (Br : built_reshaped flags reshaped)
      by (exists conv, feature, channels; repeat split; assumption).
    destruct (parse (gru_units flags)) as [gu |] eqn:P6;
      [| injection H as <-; eapply fail_gru_string; [exact Br |];
         exists [], (gru_units flags); eexists; repeat split;
         [intros s' [] | exact P6]].
    destruct (parse (return_sequences flags)) as [rs |] eqn:P7;
      [| injection H as <-; eapply fail_gru_string; [exact Br |];
         exists [gru_units flags], (return_sequences flags), []; repeat split;
         [intros s' Hin; simpl in Hin; intuition (subst; rewrite ?P6; reflexivity)
         | exact P7]].
    assert (Pg : parsed_gru flags reshaped gu rs) by (repeat split; assumption).
    destruct (run_layers (map (gru_layer (stateful flags)) (zip gu rs)) reshaped)
      as [gru |] eqn:E4; [| injection H as <-; eapply fail_gru_layer; eassumption].
    assert (Bg : built_gru flags gru) by (exists reshaped, gu, rs; now split).
    destruct (apply_layer (Stream Flatten) gru) as [flat |] eqn:E5;
      [| injection H as <-; eapply fail_flatten; eassumption].
    destruct (apply_layer (Dropout (dropout1 flags)) flat) as [dropped |] eqn:E6;
      [| injection H as <-; eapply fail_dropout; eassumption].
    assert (Bd : built_dropped flags dropped)
      by (exists gru, flat; repeat split; assumption).
    destruct (parse (units1 flags)) as [u1 |] eqn:P8;
      [| injection H as <-; eapply fail_hidden_string; [exact Bd |];
         exists [], (units1 flags); eexists; repeat split;
         [intros s' [] | exact P8]].
    destruct (parse (act1 flags)) as [a1 |] eqn:P9;
      [| injection H as <-; eapply fail_hidden_string; [exact Bd |];
         exists [units1 flags], (act1 flags), []; repeat split;
         [intros s' Hin; simpl in Hin; intuition (subst; rewrite ?P8; reflexivity)
         | exact P9]].
    assert (Ph : parsed_hidden flags dropped u1 a1) by (repeat split; assumption).
    destruct (run_layers (map dense_layer (zip u1 a1)) dropped) as [hidden |] eqn:E7;
      [| injection H as <-; eapply fail_hidden_layer; eassumption].
    assert (Bh : built_hidden flags hidden) by (exists dropped, u1, a1; now split).
    destruct (apply_layer (Dense (PInt (label_count flags)) None) hidden) eqn:E8;
      [discriminate H | injection H as <-; eapply fail_logits; eassumption].
  - intros R. unfold model_result.
    destruct R as [R | net0 R0 R | net B R | net fs ks acts ds ss B R | conv B R
                   | conv feature B R0 R | conv feature channels B R0 R1 R
                   | reshaped B R | reshaped gu rs B R | gru B R | gru flat B R0 R
                   | dropped B R | dropped u1 a1 B R | hidden B R];
      unpack_built; replay_ok;
      first
        [ replay_raise
        | destruct R as (before & s & after & Heq & Hbefore & Hs);
          replay_strings before Heq Hbefore Hs ].
Qed.

(** C4: [model] handles no exception.  (1) If [parse] raises on any of the
    hyperparameter strings, [model] raises and returns no model.  (2) [model]
    raises [e] exactly when one of its steps raises [e] and every step before
    it, in the order of the source, returned: the SpeechFeatures call, the
    expand-dims step, the parse of a convolution string, a convolution layer,
    the indexing of the shape, the Reshape, the parse of a recurrent string, a
    GRU layer, the Flatten, the Dropout, the parse of a hidden string, a hidden
    Dense layer, the final Dense.  The exception of that step is raised as it
    is, at every stage. *)
Theorem model_propagates_exceptions flags :
  (forall s e, In s (hyper_strings flags) -> parse s = Raise e ->
     exists e', returns model flags = Raise e')
  /\ (forall e, returns model flags = Raise e <-> raises_first flags e).
Proof.
  split.
  - intros s e Hin Hs. rewrite model_returns.
    destruct (model_result flags) as [m | e'] eqn:E; [| now exists e'].
    pose proof (model_needs_parses E Hin) as Hok. rewrite Hs in Hok. discriminate Hok.
  - intros e. rewrite model_returns. apply model_raises_first.
Qed.

End Graph.

(** ** Option registration *)

Lemma registered_In parser n : registered parser n = true <-> In n (map name parser).
Proof.
  unfold registered. rewrite existsb_exists. split.
  - intros (a & Ha & Heq). apply String.eqb_eq in Heq. subst n. now apply in_map.
  - intros Hin. apply in_map_iff in Hin as (a & <- & Ha).
    exists a. split; [exact Ha | apply String.eqb_refl].
Qed.

Lemma registered_fresh parser n : ~ In n (map name parser) -> registered parser n = false.
Proof.
  intros H. destruct (registered parser n) eqn:E; [| reflexivity].
  apply registered_In in E. contradiction.
Qed.

Lemma add_argument_fresh a parser :
  registered parser (name a) = false ->
  add_argument (name a) (type a) (default a) (help a) (choices a) parser
  = Ok (parser ++ [a]).
Proof. intros H. unfold add_argument. rewrite H. destruct a. reflexivity. Qed.

(** Options with fresh, pairwise distinct names are all appended. *)
Lemma register_fresh args : forall parser,
  NoDup (map name args) ->
  (forall a, In a args -> ~ In (name a) (map name parser)) ->
  register args parser = Ok (parser ++ args).
Proof.
  induction args as [| a args IH]; intros parser Hnd Hfresh; simpl.
  - now rewrite app_nil_r.
  - rewrite add_argument_fresh by (apply registered_fresh, Hfresh; now left).
    simpl and_then. simpl in Hnd. apply NoDup_cons_iff in Hnd as [Hna Hnd].
    rewrite IH.
    + rewrite <- app_assoc. reflexivity.
    + exact Hnd.
    + intros b Hb. rewrite map_app, in_app_iff. simpl. intros [Hin | [Heq | []]].
      * exact (Hfresh b (or_intror Hb) Hin).
      * apply Hna. rewrite Heq. now apply in_map.
Qed.

(** The first option whose name is registered already raises the conflict. *)
Lemma register_conflict before : forall a after parser,
  NoDup (map name (before ++ [a])) ->
  (forall b, In b before -> ~ In (name b) (map name parser)) ->
  In (name a) (map name parser) ->
  register (before ++ a :: after) parser = Raise (ArgumentError (conflict (name a))).
Proof.
  induction before as [| b before IH]; intros a after parser Hnd Hfresh Hin; simpl.
  - unfold add_argument. apply registered_In in Hin. rewrite Hin. reflexivity.
  - rewrite add_argument_fresh by (apply registered_fresh, Hfresh; now left).
    simpl and_then. simpl in Hnd. apply NoDup_cons_iff in Hnd as [Hnb Hnd].
    apply IH.
    + exact Hnd.
    + intros c Hc. rewrite map_app, in_app_iff. simpl. intros [Hc' | [Heq | []]].
      * exact (Hfresh c (or_intror Hc) Hc').
      * apply Hnb. rewrite Heq, map_app, in_app_iff. left. now apply in_map.
    + rewrite map_app, in_app_iff. now left.
Qed.

(** [model_parameters] registers, in order, the options it registers on a
    fresh parser. *)
Lemma model_parameters_as_register added parser_nn :
  model_parameters [] = Ok added ->
  model_parameters parser_nn = register added parser_nn
  /\ NoDup (map name added).
Proof.
  intros H. vm_compute in H. injection H as <-. split.
  - reflexivity.
  - simpl. repeat (constructor; [simpl; intuition discriminate |]). constructor.
Qed.

(** C7: on a parser that has none of them, [model_parameters] appends exactly
    eleven options, with these option strings, converters and defaults, in
    this order, and with no [choices] set: nothing but the converter looks at
    a value.  On a parser that already has one of the option strings, the
    first such string, in the order of the calls, raises argparse's conflict
    error and nothing is returned.  No other check is made. *)
Theorem model_parameters_registers parser_nn :
  exists added,
    map (fun a => (name a, type a, default a, choices a)) added =
     [("--cnn_filters", type_str, PStr "64,64,64,64,64,64,128", None);
      ("--cnn_kernel_size", type_str, PStr "(3,3),(5,3),(5,3),(5,3),(5,2),(5,1),(5,1)",
       None);
      ("--cnn_act", type_str, PStr "'relu','selu','selu','selu','selu','selu','selu'",
       None);
      ("--cnn_dilation_rate", type_str, PStr "(1,1),(1,1),(2,1),(1,1),(2,1),(1,1),(2,1)",
       None);
      ("--cnn_strides", type_str, PStr "(1,1),(1,1),(1,1),(1,1),(1,1),(1,1),(1,1)", None);
      ("--gru_units", type_str, PStr "512", None);
      ("--return_sequences", type_str, PStr "1", None);
      ("--stateful", type_int, PStr "0", None);
      ("--dropout1", type_float, PFloat 0.1%float, None);
      ("--units1", type_str, PStr "", None);
      ("--act1", type_str, PStr "", None)]
    /\ model_parameters [] = Ok added
    /\ ((forall a, In a added -> ~ In (name a) (map name parser_nn)) ->
        model_parameters parser_nn = Ok (parser_nn ++ added))
    /\ (forall before a after,
          added = before ++ a :: after ->
          (forall b, In b before -> ~ In (name b) (map name parser_nn)) ->
          In (name a) (map name parser_nn) ->
          model_parameters parser_nn = Raise (ArgumentError (conflict (name a)))).
Proof.
  destruct (model_parameters []) as [added |] eqn:Hadd;
    [| vm_compute in Hadd; discriminate Hadd].
  destruct (model_parameters_as_register parser_nn Hadd) as [Hreg Hnd].
  exists added. repeat split.
  - vm_compute in Hadd. injection Hadd as <-. reflexivity.
  - intros Hfresh. rewrite Hreg. now apply register_fresh.
  - intros before a after Heq Hfresh Hin. rewrite Hreg, Heq.
    apply register_conflict; try assumption.
    rewrite Heq in Hnd.
    replace (before ++ a :: after) with ((before ++ [a]) ++ after) in Hnd
      by (rewrite <- app_assoc; reflexivity).
    rewrite map_app in Hnd. exact (NoDup_app_remove_r _ _ Hnd).
Qed.

(** The strings of a flags record that carries the registered defaults. *)
Lemma default_strings flags :
  has_default_hyperparameters flags ->
  cnn_filters flags = "64,64,64,64,64,64,128"
  /\ cnn_kernel_size flags = "(3,3),(5,3),(5,3),(5,3),(5,2),(5,1),(5,1)"
  /\ cnn_act flags = "'relu','selu','selu','selu','selu','selu','selu'"
  /\ cnn_dilation_rate flags = "(1,1),(1,1),(2,1),(1,1),(2,1),(1,1),(2,1)"
  /\ cnn_strides flags = "(1,1),(1,1),(1,1),(1,1),(1,1),(1,1),(1,1)"
  /\ gru_units flags = "512"
  /\ return_sequences flags = "1"
  /\ units1 flags = ""
  /\ act1 flags = "".
Proof.
  destruct flags. unfold has_default_hyperparameters. simpl.
  intros (registry & Hreg & H1 & H2 & H3 & H4 & H5 & H6 & H7 & _ & _ & H10 & H11).
  vm_compute in Hreg. injection Hreg as <-.
  vm_compute in H1, H2, H3, H4, H5, H6, H7, H10, H11.
  repeat split; congruence.
Qed.

Lemma default_flags_registered : has_default_hyperparameters default_flags.
Proof. eexists. split; [vm_compute; reflexivity |]. repeat split. Qed.

(** ** Shapes *)

Lemma reshape_collapse_dims t f c :
  0 < f * c ->
  keras.fix_unknown_dimension [t; f; c] [-1; f * c] = Ok [t; f * c].
Proof.
  intros Hpos. unfold keras.fix_unknown_dimension, keras.unknowns, keras.known, keras.prod.
  simpl filter.
  destruct (f * c <? 0) eqn:Hneg; [apply Z.ltb_lt in Hneg; lia |].
  destruct (0 <=? f * c) eqn:Hnn; [| apply Z.leb_gt in Hnn; lia].
  simpl List.length. simpl fold_right. simpl map. rewrite Hneg.
  replace (t * (f * (c * 1))) with (t * (f * c * 1)) by ring.
  rewrite Z.mod_mul by lia. rewrite Z.div_mul by lia.
  destruct (f * c * 1 =? 0) eqn:Hz; [apply Z.eqb_eq in Hz; lia |].
  reflexivity.
Qed.


Section Shapes.
Context {fw : Framework}.


Context (laws : KerasShapes fw).

Lemma apply_layer_batch l net net' b rest :
  apply_layer l net = Ok net' -> shape net = b :: rest ->
  exists rest', shape net' = b :: rest'.
Proof.
  intros H Hs. apply apply_layer_ok in H as [H _]. rewrite Hs in H.
  eapply (batch_kept laws). exact H.
Qed.

Lemma run_layers_batch ls : forall net net' b rest,
  run_layers ls net = Ok net' -> shape net = b :: rest ->
  exists rest', shape net' = b :: rest'.
Proof.
  induction ls as [| l ls IH]; intros net net' b rest H Hs; simpl in H.
  - injection H as <-. now exists rest.
  - destruct (apply_layer l net) as [net1 |] eqn:E; [| discriminate].
    destruct (apply_layer_batch _ _ E Hs) as [rest1 Hs1]. exact (IH _ _ _ _ H Hs1).
Qed.

Lemma dense_keeps_rank2 units activation net net' b k :
  apply_layer (Dense units activation) net = Ok net' -> shape net = [b; k] ->
  exists k', shape net' = [b; k'] /\ forall n, units = PInt n -> k' = n.
Proof.
  intros H Hs. destruct (apply_layer_batch _ _ H Hs) as [rest' Hs'].
  apply apply_layer_ok in H as [H _]. rewrite Hs in H.
  apply (dense_rule laws) in H as [Hlen Hlast]. rewrite Hs' in Hlen, Hlast.
  destruct rest' as [| k' [| x rest']]; try discriminate Hlen.
  exists k'. split; [exact Hs' |]. intros n Hn. exact (Hlast n Hn).
Qed.

Lemma hidden_keeps_rank2 cfgs : forall net net' b k,
  run_layers (map dense_layer cfgs) net = Ok net' -> shape net = [b; k] ->
  exists k', shape net' = [b; k'].
Proof.
  induction cfgs as [| cfg cfgs IH]; intros net net' b k H Hs; simpl in H.
  - injection H as <-. now exists k.
  - destruct (apply_layer (dense_layer cfg) net) as [net1 |] eqn:E; [| discriminate].
    destruct (dense_keeps_rank2 _ _ _ E Hs) as (k1 & Hs1 & _). exact (IH _ _ _ _ H Hs1).
Qed.

(** The output of an explained model has shape [batch_size, label_count]. *)
Lemma explained_output_shape flags m tr :
  explains flags m tr -> shape (outputs m) = [batch_size flags; label_count flags].
Proof.
  intros H. rewrite (ex_model H). simpl outputs.
  assert (H0 : shape (Input [desired_samples flags] (batch_size flags))
               = batch_size flags :: [desired_samples flags]) by reflexivity.
  destruct (apply_layer_batch _ _ (ex_features H) H0) as [r1 H1].
  destruct (apply_layer_batch _ _ (ex_expanded H) H1) as [r2 H2].
  destruct (run_layers_batch _ _ (ex_conv H) H2) as [r3 H3].
  destruct (apply_layer_batch _ _ (ex_reshaped H) H3) as [r4 H4].
  destruct (run_layers_batch _ _ (ex_gru H) H4) as [r5 H5].
  destruct (apply_layer_ok _ _ (ex_flat H)) as [H6 _].
  apply (flatten_rule laws) in H6. rewrite H5 in H6. simpl in H6. injection H6 as H6.
  destruct (apply_layer_ok _ _ (ex_dropped H)) as [H7 _].
  apply (dropout_rule laws) in H7. rewrite <- H6 in H7.
  destruct (hidden_keeps_rank2 _ _ (ex_hidden H) H7) as [k8 H8].
  destruct (dense_keeps_rank2 _ _ _ (ex_logits H) H8) as (k9 & H9 & Hn).
  rewrite H9, (Hn _ eq_refl). reflexivity.
Qed.

End Shapes.

(** ** The reference framework *)

Ltac break_match H :=
  repeat match type of H with
         | context [match ?x with _ => _ end] => destruct x; try discriminate H
         end.

Lemma reference_batch_kept l : forall b rest s',
  layer_shape (Framework := reference) l (b :: rest) = Ok s' -> exists rest', s' = b :: rest'.
Proof.
  simpl. induction l; intros b rest s' H; simpl in H.
  - discriminate H.
  - unfold Reference.speech_features_shape in H.
    break_match H; injection H as <-; eexists; reflexivity.
  - injection H as <-. eexists; reflexivity.
  - unfold keras.conv2d_shape in H.
    break_match H; injection H as <-; eexists; reflexivity.
  - injection H as <-. eexists; reflexivity.
  - exact (IHl _ _ _ H).
  - destruct (keras.fix_unknown_dimension rest target_shape); [| discriminate H].
    injection H as <-. eexists; reflexivity.
  - unfold Reference.gru_shape in H. break_match H; injection H as <-; eexists; reflexivity.
  - injection H as <-. eexists; reflexivity.
  - unfold keras.dense_shape in H. destruct units; try discriminate H.
    destruct rest as [| r rest]; [discriminate H |].
    simpl in H. injection H as <-. eexists; reflexivity.
Qed.

Lemma reference_shapes : KerasShapes reference.
Proof.
  constructor.
  - intros l b rest s'. apply reference_batch_kept.
  - intros s s' H. exact H.
  - intros rate s s' H. simpl in H. now injection H.
  - intros units activation s s' H. simpl in H. unfold keras.dense_shape in H.
    destruct units as [| n | | |]; try discriminate H.
    destruct (2 <=? List.length s)%nat eqn:Hrank; [| discriminate H].
    injection H as <-. apply Nat.leb_le in Hrank.
    destruct s as [| b rest]; [simpl in Hrank; lia |].
    split.
    + assert (E : b :: rest <> []) by discriminate.
      apply (app_removelast_last 0) in E. apply (f_equal (@List.length Z)) in E.
      rewrite length_app in E |- *. simpl List.length in E |- *. lia.
    + intros n' Hn. injection Hn as <-. apply last_last.
Qed.

Lemma conv_output_length_unit_stride h k d :
  0 < k -> 0 < d -> (k - 1) * d + 1 <= h ->
  keras.conv_output_length h k d 1 = Ok (h - (k - 1) * d).
Proof.
  intros Hk Hd Hh. unfold keras.conv_output_length.
  apply Z.ltb_lt in Hk, Hd. rewrite Hk, Hd. simpl.
  apply Z.leb_le in Hh. rewrite Hh. rewrite Z.div_1_r. f_equal. lia.
Qed.

Lemma reference_conv_step net b h w c f kh kw act dh dw :
  shape net = [b; h; w; c] ->
  0 < kh -> 0 < kw -> 0 < dh -> 0 < dw ->
  (kh - 1) * dh + 1 <= h -> (kw - 1) * dw + 1 <= w ->
  let l := Stream (Conv2D (PInt f) (PTuple [PInt kh; PInt kw]) act
                          (PTuple [PInt dh; PInt dw]) (PTuple [PInt 1; PInt 1])) in
  apply_layer (fw := reference) l net
  = Ok {| shape := [b; h - (kh - 1) * dh; w - (kw - 1) * dw; f];
          history := history net ++ [l] |}.
Proof.
  intros Hs Hkh Hkw Hdh Hdw Hh Hw l. unfold apply_layer. rewrite Hs.
  subst l. simpl layer_shape. unfold keras.conv2d_shape.
  rewrite (conv_output_length_unit_stride Hkh Hdh Hh).
  rewrite (conv_output_length_unit_stride Hkw Hdw Hw). reflexivity.
Qed.

Ltac eval_lhs :=
  match goal with
  | |- ?lhs = _ => let v := eval vm_compute in lhs in change lhs with v
  end.

(** With the registered defaults the reference framework builds the model as
    soon as the features span 39 frames of 10 values: the seven convolutions
    consume 38 frames and 9 feature columns. *)
Lemma reference_builds_default flags T F :
  has_default_hyperparameters flags ->
  layer_shape (Framework := reference) (SpeechFeatures (speech_features_kwargs flags))
              [batch_size flags; desired_samples flags] = Ok [batch_size flags; T; F] ->
  39 <= T -> 10 <= F ->
  exists m, returns (model (fw := reference)) flags = Ok m.
Proof.
  intros Hdef Hsf HT HF.
  destruct (default_strings Hdef) as (E1 & E2 & E3 & E4 & E5 & E6 & E7 & E8 & E9).
  eexists. apply model_explained.
  eexists (Build_Trace _ _ _ _ _ _ _ _ _ _ _ _ _ _ _ _ _ _ _ _).
  constructor; cbn [tr_filters tr_kernel_size tr_activation tr_dilation_rate tr_strides
                    tr_gru_units tr_return_sequences tr_units1 tr_act1 tr_feature tr_channels
                    net_features net_expanded net_conv net_reshaped net_gru net_flat
                    net_dropped net_hidden net_logits].
  - unfold apply_layer. cbn [shape Input]. rewrite Hsf. reflexivity.
  - cbn. reflexivity.
  - rewrite E1. eval_lhs. reflexivity.
  - rewrite E2. eval_lhs. reflexivity.
  - rewrite E3. eval_lhs. reflexivity.
  - rewrite E4. eval_lhs. reflexivity.
  - rewrite E5. eval_lhs. reflexivity.
  - cbn [map zip5 conv_layer run_layers].
    do 7 (erewrite reference_conv_step; [| reflexivity | lia | lia | lia | lia | lia | lia ];
          cbv beta iota; cbn [run_layers]).
    reflexivity.
  - cbn. reflexivity.
  - cbn. reflexivity.
  - unfold apply_layer. cbn [shape layer_shape reference Reference.layer_shape].
    unfold keras.reshape_shape. rewrite reshape_collapse_dims by lia. reflexivity.
  - rewrite E6. eval_lhs. reflexivity.
  - rewrite E7. eval_lhs. reflexivity.
  - cbn. reflexivity.
  - cbn. reflexivity.
  - cbn. reflexivity.
  - rewrite E8. eval_lhs. reflexivity.
  - rewrite E9. eval_lhs. reflexivity.
  - cbn. reflexivity.
  - cbn. reflexivity.
  - reflexivity.
Qed.

(** The registered defaults agree in length under the reference [parse]:
    seven entries for each convolution list, one for each recurrent list, none
    for the hidden lists. *)
Lemma default_lengths_agree :
  map (fun s => match Reference.parse s with
                | Ok xs => Some (List.length xs)
                | Raise _ => None
                end)
      (hyper_strings default_flags)
  = [Some 7; Some 7; Some 7; Some 7; Some 7; Some 1; Some 1; Some 0; Some 0]%nat.
Proof. vm_compute. reflexivity. Qed.

(** C3: with the hyperparameter defaults registered by [model_parameters], the
    output tensor of the model has shape [batch_size, label_count]: (1) in
    every framework that obeys the Keras shape rules, for whatever model is
    returned; (2) in the reference framework a model is returned, with that
    output shape, whenever the features span at least 39 frames of at least 10
    values. *)
Theorem default_output_shape flags :
  has_default_hyperparameters flags ->
  (forall fw : Framework, KerasShapes fw ->
     forall m, returns (model (fw := fw)) flags = Ok m ->
     shape (outputs m) = [batch_size flags; label_count flags])
  /\ (forall T F,
        layer_shape (Framework := reference) (SpeechFeatures (speech_features_kwargs flags))
                    [batch_size flags; desired_samples flags] = Ok [batch_size flags; T; F] ->
        39 <= T -> 10 <= F ->
        exists m, returns (model (fw := reference)) flags = Ok m
                  /\ shape (outputs m) = [batch_size flags; label_count flags]).
Proof.
  intros Hdef. split.
  - intros fw laws m H. apply model_explained in H as [tr H].
    exact (explained_output_shape laws H).
  - intros T F Hsf HT HF.
    destruct (reference_builds_default Hdef Hsf HT HF) as [m H].
    exists m. split; [exact H |].
    apply model_explained in H as [tr H].
    exact (explained_output_shape reference_shapes H).
Qed.

(** ** Concrete runs in the reference framework *)

Lemma small_flags_build : exists m, returns (model (fw := reference)) small_flags = Ok m.
Proof. eexists. vm_compute. reflexivity. Defined.

Lemma ragged_flags_build : exists m, returns (model (fw := reference)) ragged_flags = Ok m.
Proof. eexists. vm_compute. reflexivity. Defined.

Lemma default_flags_build : exists m, returns (model (fw := reference)) default_flags = Ok m.
Proof. eexists. vm_compute. reflexivity. Defined.

(** The small configuration builds, and the statement of C1 leaves one graph
    only: two convolutions, a Reshape to 16 * 32 = 512 columns, two GRU layers
    and two hidden Dense layers, each from the entries at its position. *)
Lemma model_layer_sequence_witness :
  exists m,
    returns (model (fw := reference)) small_flags = Ok m /\
    layers m =
    [InputLayer [16000] 100; SpeechFeatures (speech_features_kwargs small_flags); ExpandDims;
     Stream (Conv2D (PInt 16) (PTuple [PInt 3; PInt 3]) (PStr "relu")
                    (PTuple [PInt 1; PInt 1]) (PTuple [PInt 1; PInt 1]));
     Stream (Conv2D (PInt 32) (PTuple [PInt 5; PInt 3]) (PStr "selu")
                    (PTuple [PInt 2; PInt 1]) (PTuple [PInt 1; PInt 1]));
     Reshape [-1; 512];
     GRU (PInt 64) (PInt 1) 0; GRU (PInt 32) (PInt 0) 0;
     Stream Flatten; Dropout 0.1%float;
     Dense (PInt 128) (Some (PStr "relu")); Dense (PInt 64) (Some (PStr "linear"));
     Dense (PInt 12) None].
Proof.
  destruct small_flags_build as [m E]. exists m. split; [exact E |].
  destruct (model_layer_sequence (fw := reference) small_flags E)
    as (fs & ks & acts & ds & ss & gu & rs & u1 & a1 & convs & grus & hidden & conv
        & feature & channels & P1 & P2 & P3 & P4 & P5 & P6 & P7 & P8 & P9 & HL
        & Hclen & Hcnth & Hrun & Hf & Hc & Hglen & Hgnth & Hhlen & Hhnth).
  vm_compute in P1, P2, P3, P4, P5, P6, P7, P8, P9.
  injection P1 as <-. injection P2 as <-. injection P3 as <-. injection P4 as <-.
  injection P5 as <-. injection P6 as <-. injection P7 as <-. injection P8 as <-.
  injection P9 as <-.
  simpl in Hclen, Hglen, Hhlen.
  destruct convs as [| c1 [| c2 [| c3 convs]]]; try discriminate Hclen.
  destruct grus as [| g1 [| g2 [| g3 grus]]]; try discriminate Hglen.
  destruct hidden as [| d1 [| d2 [| d3 hidden]]]; try discriminate Hhlen.
  pose proof (Hcnth 0%nat _ _ _ _ _ eq_refl eq_refl eq_refl eq_refl eq_refl) as C1.
  pose proof (Hcnth 1%nat _ _ _ _ _ eq_refl eq_refl eq_refl eq_refl eq_refl) as C2.
  pose proof (Hgnth 0%nat _ _ eq_refl eq_refl) as G1.
  pose proof (Hgnth 1%nat _ _ eq_refl eq_refl) as G2.
  pose proof (Hhnth 0%nat _ _ eq_refl eq_refl) as D1.
  pose proof (Hhnth 1%nat _ _ eq_refl eq_refl) as D2.
  simpl in C1, C2, G1, G2, D1, D2.
  injection C1 as ->. injection C2 as ->. injection G1 as ->. injection G2 as ->.
  injection D1 as ->. injection D2 as ->.
  vm_compute in Hrun. injection Hrun as <-.
  vm_compute in Hf, Hc. injection Hf as <-. injection Hc as <-.
  rewrite HL. reflexivity.
Defined.

(** Unequal lengths: three filter counts against two kernel sizes give two
    convolutions, two unit counts against one return_sequences entry one GRU,
    two hidden sizes against one activation one hidden Dense. *)
Lemma zip_truncation_witness :
  exists m,
    returns (model (fw := reference)) ragged_flags = Ok m /\
    count is_conv (layers m) = 2%nat /\
    count is_gru (layers m) = 1%nat /\
    pred (count is_dense (layers m)) = 1%nat.
Proof.
  destruct ragged_flags_build as [m E]. exists m. split; [exact E |].
  pose proof (@zip_truncation reference ragged_flags m
                [PInt 16; PInt 32; PInt 64]
                [PTuple [PInt 3; PInt 3]; PTuple [PInt 5; PInt 3]]
                [PStr "relu"; PStr "selu"; PStr "selu"]
                [PTuple [PInt 1; PInt 1]; PTuple [PInt 2; PInt 1]; PTuple [PInt 1; PInt 1]]
                [PTuple [PInt 1; PInt 1]; PTuple [PInt 1; PInt 1]; PTuple [PInt 1; PInt 1]]
                [PInt 64; PInt 32] [PInt 1]
                [PInt 128; PInt 64] [PStr "relu"]
                eq_refl eq_refl eq_refl eq_refl eq_refl eq_refl eq_refl eq_refl eq_refl E)
    as H.
  exact (conj (proj1 H) (conj (proj1 (proj2 H)) (proj1 (proj2 (proj2 H))))).
Defined.

(** The registered defaults on one-second clips: 49 frames of 20 features
    give logits of shape [100, 12]. *)
Lemma default_output_shape_witness :
  has_default_hyperparameters default_flags /\
  exists m, returns (model (fw := reference)) default_flags = Ok m
            /\ shape (outputs m) = [100; 12].
Proof.
  split; [exact default_flags_registered |].
  apply (proj2 (default_output_shape default_flags_registered) 49 20).
  - vm_compute. reflexivity.
  - lia.
  - lia.
Defined.

Ltac build_stage :=
  unfold built_hidden, parsed_hidden, built_dropped, built_gru, parsed_gru,
    built_reshaped, built_conv, parsed_conv, built_features;
  repeat match goal with
         | |- exists _, _ => eexists
         | |- _ /\ _ => split
         end;
  (eval_lhs; reflexivity).

(** Three malformed configurations, one per stage: an unbalanced parenthesis
    in the kernel sizes, the same in [gru_units] (parsed only after the
    convolutions and the Reshape are built), and a hidden size that is not a
    number, which the hidden Dense layer rejects.  Each time [model] raises the
    exception of the failing step. *)
Lemma model_propagates_exceptions_witness :
  returns (model (fw := reference)) malformed_flags
  = Raise (SyntaxError "unexpected EOF while parsing")
  /\ returns (model (fw := reference)) (set_hyper h_gru_units "512,(" default_flags)
     = Raise (SyntaxError "unexpected EOF while parsing")
  /\ returns (model (fw := reference))
             (set_hyper h_units1 "'wide'" (set_hyper h_act1 "'relu'" default_flags))
     = Raise (TypeError "units must be an integer").
Proof.
  split; [| split].
  - apply (proj2 (model_propagates_exceptions (fw := reference) malformed_flags)).
    eapply fail_conv_string.
    + build_stage.
    + exists [cnn_filters malformed_flags], (cnn_kernel_size malformed_flags).
      eexists. split; [reflexivity | split].
      * intros s' [<- | []]. vm_compute. reflexivity.
      * vm_compute. reflexivity.
  - apply (proj2 (model_propagates_exceptions (fw := reference)
                    (set_hyper h_gru_units "512,(" default_flags))).
    eapply fail_gru_string.
    + build_stage.
    + exists [], "512,(". eexists. split; [reflexivity | split].
      * intros s' [].
      * vm_compute. reflexivity.
  - apply (proj2 (model_propagates_exceptions (fw := reference)
                    (set_hyper h_units1 "'wide'" (set_hyper h_act1 "'relu'" default_flags)))).
    eapply fail_hidden_layer.
    + build_stage.
    + vm_compute. reflexivity.
Defined.

(** The default configuration ends in [Dense(12)] with no activation. *)
Lemma final_dense_logits_witness :
  exists m,
    returns (model (fw := reference)) default_flags = Ok m /\
    exists before net,
      layers m = before ++ [Dense (PInt 12) None]
      /\ apply_layer (fw := reference) (Dense (PInt 12) None) net = Ok (outputs m).
Proof.
  destruct default_flags_build as [m E]. exists m. split; [exact E |].
  exact (final_dense_logits (fw := reference) default_flags E).
Defined.


(** The registered defaults of [units1] and [act1] are the empty string, which
    parses to no entry: the default model has no hidden Dense layer. *)
Lemma hidden_dense_optional_witness :
  Reference.parse "" = Ok [] /\
  exists m,
    returns (model (fw := reference)) default_flags = Ok m /\
    exists before net dropped,
      layers m = before ++ [Dropout 0.1%float; Dense (PInt 12) None]
      /\ apply_layer (fw := reference) (Dropout 0.1%float) net = Ok dropped
      /\ apply_layer (fw := reference) (Dense (PInt 12) None) dropped = Ok (outputs m)
      /\ count is_dense (layers m) = 1%nat.
Proof.
  split; [reflexivity |].
  destruct default_flags_build as [m E]. exists m. split; [exact E |].
  exact (hidden_dense_optional (fw := reference) default_flags eq_refl eq_refl E).
Defined.

(** Both GRU layers of the small configuration carry [stateful = 0]. *)
Lemma gru_shared_stateful_witness :
  exists m,
    returns (model (fw := reference)) small_flags = Ok m /\
    count is_gru (layers m) = 2%nat /\
    forall units seqs st, In (GRU units seqs st) (layers m) -> st = 0.
Proof.
  destruct small_flags_build as [m E]. exists m. split; [exact E |].
  split.
  - vm_compute in E. injection E as <-. reflexivity.
  - exact (gru_shared_stateful (fw := reference) small_flags E).
Defined.

(** * Further results *)

(** ** More on Python's zip *)

Lemma zip5_empty {A B C D E} (a : list A) (b : list B) (c : list C) (d : list D)
      (e : list E) :
  a = [] \/ b = [] \/ c = [] \/ d = [] \/ e = [] -> zip5 a b c d e = [].
Proof.
  intros H. apply length_zero_iff_nil. rewrite zip5_length.
  destruct H as [-> | [-> | [-> | [-> | ->]]]]; simpl; lia.
Qed.

Lemma zip_empty {A B} (a : list A) (b : list B) :
  a = [] \/ b = [] -> zip a b = [].
Proof.
  intros [-> | ->]; [reflexivity |]. unfold zip. destruct a; reflexivity.
Qed.

Lemma zip5_surplus {A B C D E} (a extra : list A) (b : list B) (c : list C) (d : list D)
      (e : list E) :
  (List.length b <= List.length a)%nat ->
  zip5 (a ++ extra) b c d e = zip5 a b c d e.
Proof.
  revert b c d e. induction a as [| x a IH]; intros b c d e Hlen.
  - destruct b; [| simpl in Hlen; lia]. destruct extra; reflexivity.
  - destruct b as [| y b]; [reflexivity |].
    destruct c as [| z c]; [reflexivity |].
    destruct d as [| u d]; [reflexivity |].
    destruct e as [| v e]; [reflexivity |].
    simpl. f_equal. apply IH. simpl in Hlen. lia.
Qed.

Section MoreGraph.
Context {fw : Framework}.

(** A returned model has seven fixed layers (input, SpeechFeatures,
    expand-dims, Reshape, Flatten, Dropout, final Dense) and, on top, one layer
    per zipped configuration of the three loops. *)
Theorem model_layer_count flags m fs ks acts ds ss gu rs u1 a1 :
  parse (cnn_filters flags) = Ok fs ->
  parse (cnn_kernel_size flags) = Ok ks ->
  parse (cnn_act flags) = Ok acts ->
  parse (cnn_dilation_rate flags) = Ok ds ->
  parse (cnn_strides flags) = Ok ss ->
  parse (gru_units flags) = Ok gu ->
  parse (return_sequences flags) = Ok rs ->
  parse (units1 flags) = Ok u1 ->
  parse (act1 flags) = Ok a1 ->
  returns model flags = Ok m ->
  List.length (layers m) =
  (7 + Nat.min (List.length fs) (Nat.min (List.length ks) (Nat.min (List.length acts)
                (Nat.min (List.length ds) (List.length ss))))
     + Nat.min (List.length gu) (List.length rs)
     + Nat.min (List.length u1) (List.length a1))%nat.
Proof.
  intros H1 H2 H3 H4 H5 H6 H7 H8 H9 H. apply model_explained in H as [tr H].
  destruct (explained_parses H H1 H2 H3 H4 H5 H6 H7 H8 H9)
    as (E1 & E2 & E3 & E4 & E5 & E6 & E7 & E8 & E9).
  rewrite (explained_layers H), E1, E2, E3, E4, E5, E6, E7, E8, E9.
  repeat rewrite length_app. repeat rewrite length_map.
  rewrite zip5_length. repeat rewrite zip_length. simpl List.length. lia.
Qed.

(** The convolution parameters agree positionally: the i-th convolution layer
    of a returned model (layer 3 + i of the graph) is built from the i-th entry
    of each of the five parsed lists. *)
Theorem conv_layers_positional flags m fs ks acts ds ss i f k a d s :
  parse (cnn_filters flags) = Ok fs ->
  parse (cnn_kernel_size flags) = Ok ks ->
  parse (cnn_act flags) = Ok acts ->
  parse (cnn_dilation_rate flags) = Ok ds ->
  parse (cnn_strides flags) = Ok ss ->
  returns model flags = Ok m ->
  nth_error fs i = Some f -> nth_error ks i = Some k -> nth_error acts i = Some a ->
  nth_error ds i = Some d -> nth_error ss i = Some s ->
  nth_error (layers m) (3 + i) = Some (Stream (Conv2D f k a d s)).
Proof.
  intros H1 H2 H3 H4 H5 H Hf Hk Ha Hd Hs. apply model_explained in H as [tr H].
  pose proof (ex_filters H) as E1. pose proof (ex_kernel_size H) as E2.
  pose proof (ex_activation H) as E3. pose proof (ex_dilation_rate H) as E4.
  pose proof (ex_strides H) as E5.
  rewrite H1 in E1. rewrite H2 in E2. rewrite H3 in E3. rewrite H4 in E4. rewrite H5 in E5.
  injection E1 as E1. injection E2 as E2. injection E3 as E3. injection E4 as E4.
  injection E5 as E5.
  rewrite (explained_layers H), <- E1, <- E2, <- E3, <- E4, <- E5.
  change (3 + i)%nat with (S (S (S i))). simpl nth_error.
  pose proof (zip5_nth_error fs ks acts ds ss i Hf Hk Ha Hd Hs) as Hz.
  rewrite nth_error_app1.
  - rewrite nth_error_map, Hz. reflexivity.
  - rewrite length_map. apply nth_error_Some. rewrite Hz. discriminate.
Qed.

(** An empty list among the five convolution lists empties the convolution
    stack: a returned model has no convolution layer, its Reshape layer comes
    right after the expand-dims step, and the Reshape target is
    [(-1, feature * channels)] with the two factors read from axes 2 and 3 of
    the expand-dims output, the tensor that SpeechFeatures and expand-dims
    produce from the input. *)
Theorem empty_conv_list_skips_stack flags m fs ks acts ds ss :
  parse (cnn_filters flags) = Ok fs ->
  parse (cnn_kernel_size flags) = Ok ks ->
  parse (cnn_act flags) = Ok acts ->
  parse (cnn_dilation_rate flags) = Ok ds ->
  parse (cnn_strides flags) = Ok ss ->
  fs = [] \/ ks = [] \/ acts = [] \/ ds = [] \/ ss = [] ->
  returns model flags = Ok m ->
  count is_conv (layers m) = 0%nat
  /\ exists expanded feature channels rest,
       run_layers [SpeechFeatures (speech_features_kwargs flags); ExpandDims]
                  (Input [desired_samples flags] (batch_size flags)) = Ok expanded
       /\ getitem (shape expanded) 2 = Ok feature
       /\ getitem (shape expanded) 3 = Ok channels
       /\ layers m
          = [InputLayer [desired_samples flags] (batch_size flags);
             SpeechFeatures (speech_features_kwargs flags); ExpandDims;
             Reshape [-1; feature * channels]] ++ rest.
Proof.
  intros H1 H2 H3 H4 H5 Hempty H. apply model_explained in H as [tr H].
  pose proof (ex_filters H) as E1. pose proof (ex_kernel_size H) as E2.
  pose proof (ex_activation H) as E3. pose proof (ex_dilation_rate H) as E4.
  pose proof (ex_strides H) as E5.
  rewrite H1 in E1. rewrite H2 in E2. rewrite H3 in E3. rewrite H4 in E4. rewrite H5 in E5.
  injection E1 as E1. injection E2 as E2. injection E3 as E3. injection E4 as E4.
  injection E5 as E5.
  assert (Hz : zip5 (tr_filters tr) (tr_kernel_size tr) (tr_activation tr)
                    (tr_dilation_rate tr) (tr_strides tr) = []).
  { rewrite <- E1, <- E2, <- E3, <- E4, <- E5. now apply zip5_empty. }
  split.
  - destruct (explained_counts H) as (C & _). rewrite C, Hz. reflexivity.
  - pose proof (ex_conv H) as Hc. rewrite Hz in Hc. simpl in Hc. injection Hc as Hc.
    exists (net_expanded tr), (tr_feature tr), (tr_channels tr).
    eexists. repeat split.
    + simpl run_layers. rewrite (ex_features H), (ex_expanded H). reflexivity.
    + rewrite Hc. exact (ex_feature H).
    + rewrite Hc. exact (ex_channels H).
    + rewrite (explained_layers H), Hz. simpl. reflexivity.
Qed.

(** An empty list among the two recurrent lists empties the recurrent stack:
    a returned model has no GRU layer and its Flatten layer is called on the
    output of the Reshape layer. *)
Theorem empty_gru_list_skips_stack flags m gu rs :
  parse (gru_units flags) = Ok gu ->
  parse (return_sequences flags) = Ok rs ->
  gu = [] \/ rs = [] ->
  returns model flags = Ok m ->
  count is_gru (layers m) = 0%nat
  /\ exists before n reshaped flat after,
       history reshaped = before ++ [Reshape [-1; n]]
       /\ apply_layer (Stream Flatten) reshaped = Ok flat
       /\ layers m = history flat ++ after.
Proof.
  intros H1 H2 Hempty H. apply model_explained in H as [tr H].
  pose proof (ex_gru_units H) as E1. pose proof (ex_return_sequences H) as E2.
  rewrite H1 in E1. rewrite H2 in E2. injection E1 as E1. injection E2 as E2.
  assert (Hz : zip (tr_gru_units tr) (tr_return_sequences tr) = []).
  { rewrite <- E1, <- E2. now apply zip_empty. }
  split.
  - destruct (explained_counts H) as (_ & C & _). rewrite C, Hz. reflexivity.
  - pose proof (ex_gru H) as Hg. rewrite Hz in Hg. simpl in Hg. injection Hg as Hg.
    exists (history (net_conv tr)), (tr_feature tr * tr_channels tr),
      (net_reshaped tr), (net_flat tr).
    eexists. repeat split.
    + destruct (apply_layer_ok _ _ (ex_reshaped H)) as [_ ->]. reflexivity.
    + rewrite Hg. exact (ex_flat H).
    + rewrite (ex_model H). unfold layers. simpl outputs.
      destruct (apply_layer_ok _ _ (ex_logits H)) as [_ ->].
      rewrite (run_layers_history _ _ (ex_hidden H)).
      destruct (apply_layer_ok _ _ (ex_dropped H)) as [_ ->].
      repeat rewrite <- app_assoc. reflexivity.
Qed.

(** One empty list is enough to drop the hidden stack: when [units1] or
    [act1] parses to no entry, whatever the other holds, a returned model has
    the final Dense as its only Dense layer, called on the Dropout output. *)
Theorem either_empty_drops_hidden flags m u1 a1 :
  parse (units1 flags) = Ok u1 ->
  parse (act1 flags) = Ok a1 ->
  u1 = [] \/ a1 = [] ->
  returns model flags = Ok m ->
  count is_dense (layers m) = 1%nat
  /\ exists dropped,
       apply_layer (Dense (PInt (label_count flags)) None) dropped = Ok (outputs m)
       /\ exists before, history dropped = before ++ [Dropout (dropout1 flags)].
Proof.
  intros H1 H2 Hempty H. apply model_explained in H as [tr H].
  pose proof (ex_units1 H) as E1. pose proof (ex_act1 H) as E2.
  rewrite H1 in E1. rewrite H2 in E2. injection E1 as E1. injection E2 as E2.
  assert (Hz : zip (tr_units1 tr) (tr_act1 tr) = []).
  { rewrite <- E1, <- E2. now apply zip_empty. }
  split.
  - destruct (explained_counts H) as (_ & _ & C). rewrite C, Hz. reflexivity.
  - pose proof (ex_hidden H) as Hh. rewrite Hz in Hh. simpl in Hh. injection Hh as Hh.
    exists (net_dropped tr). split.
    + rewrite (ex_model H), Hh. exact (ex_logits H).
    + exists (history (net_flat tr)).
      destruct (apply_layer_ok _ _ (ex_dropped H)) as [_ ->]. reflexivity.
Qed.

End MoreGraph.

(** ** Assigned strings and the order of failures *)

Section Strings.
Context {fw : Framework}.

Lemma set_hyper_kwargs h s flags :
  speech_features_kwargs (set_hyper h s flags) = speech_features_kwargs flags.
Proof. destruct h; reflexivity. Qed.

Lemma with_strings_kwargs flags a b c d e f g h i :
  speech_features_kwargs (with_strings flags a b c d e f g h i)
  = speech_features_kwargs flags.
Proof. reflexivity. Qed.

Ltac replay H :=
  repeat (first
            [ rewrite (ex_features H) | rewrite (ex_expanded H)
            | rewrite (ex_filters H) | rewrite (ex_kernel_size H)
            | rewrite (ex_activation H) | rewrite (ex_dilation_rate H)
            | rewrite (ex_strides H) | rewrite (ex_conv H)
            | rewrite (ex_feature H) | rewrite (ex_channels H)
            | rewrite (ex_reshaped H)
            | rewrite (ex_gru_units H) | rewrite (ex_return_sequences H)
            | rewrite (ex_gru H) | rewrite (ex_flat H) | rewrite (ex_dropped H)
            | rewrite (ex_units1 H) | rewrite (ex_act1 H)
            | rewrite (ex_hidden H) ];
          cbv beta iota).

(** Breaking one string of a working configuration: when [model] returns a
    model for the flags and [parse] raises [e] on a string, assigning that
    string to any one of the nine hyperparameter attributes makes [model]
    raise exactly [e]: every step before that [parse] call runs as before. *)
Theorem broken_string_raises flags m h s' e :
  returns model flags = Ok m ->
  parse s' = Raise e ->
  returns model (set_hyper h s' flags) = Raise e.
Proof.
  intros H Hs'. apply model_explained in H as [tr H].
  rewrite model_returns. unfold model_result. rewrite set_hyper_kwargs.
  destruct h;
    cbn [set_hyper with_strings get_hyper desired_samples batch_size label_count
         cnn_filters cnn_kernel_size cnn_act cnn_dilation_rate cnn_strides
         gru_units return_sequences stateful dropout1 units1 act1];
    cbv zeta; replay H; rewrite Hs'; reflexivity.
Qed.

(** Surplus filter counts change nothing: when the parsed filter list is at
    least as long as the parsed kernel-size list, a filter string that parses
    to the same list followed by further entries gives the same outcome of
    [model], model or exception. *)
Theorem surplus_filters_ignored flags s' fs extra ks :
  parse (cnn_filters flags) = Ok fs ->
  parse s' = Ok (fs ++ extra) ->
  parse (cnn_kernel_size flags) = Ok ks ->
  (List.length ks <= List.length fs)%nat ->
  returns model (set_hyper h_cnn_filters s' flags) = returns model flags.
Proof.
  intros Hfs Hs' Hks Hlen. rewrite !model_returns. unfold model_result.
  rewrite set_hyper_kwargs.
  cbn [set_hyper with_strings get_hyper desired_samples batch_size label_count
       cnn_filters cnn_kernel_size cnn_act cnn_dilation_rate cnn_strides
       gru_units return_sequences stateful dropout1 units1 act1].
  cbv zeta. rewrite Hfs, Hs', Hks.
  destruct (apply_layer (SpeechFeatures (speech_features_kwargs flags))
                        (Input [desired_samples flags] (batch_size flags)))
    as [net0 |]; [| reflexivity].
  destruct (apply_layer ExpandDims net0) as [net |]; [| reflexivity].
  destruct (parse (cnn_act flags)); [| reflexivity].
  destruct (parse (cnn_dilation_rate flags)); [| reflexivity].
  destruct (parse (cnn_strides flags)); [| reflexivity].
  rewrite (zip5_surplus fs extra ks _ _ _ Hlen). reflexivity.
Qed.

(** Failures of the feature front end come first: when the SpeechFeatures
    call raises [e], [model] raises [e] whatever the nine hyperparameter
    strings are, malformed ones included, since none is parsed before. *)
Theorem feature_errors_come_first flags e :
  apply_layer (SpeechFeatures (speech_features_kwargs flags))
              (Input [desired_samples flags] (batch_size flags)) = Raise e ->
  forall a b c d s u r hu ha,
    returns model (with_strings flags a b c d s u r hu ha) = Raise e.
Proof.
  intros H a b c d s u r hu ha. rewrite model_returns. unfold model_result.
  rewrite with_strings_kwargs.
  cbn [with_strings desired_samples batch_size]. cbv zeta. rewrite H. reflexivity.
Qed.

End Strings.

(** ** What the graph never holds *)

Section Kinds.
Context {fw : Framework}.

(** Only the convolutions and the Flatten are wrapped in [Stream]: every
    streamed layer of a returned model has a Conv2D or Flatten cell, and
    exactly one of them is the Flatten. *)
Theorem stream_wraps_conv_and_flatten_only flags m :
  returns model flags = Ok m ->
  (forall cell, In (Stream cell) (layers m) ->
     cell = Flatten \/ exists f k a d s, cell = Conv2D f k a d s)
  /\ count (fun l => match l with Stream Flatten => true | _ => false end) (layers m)
     = 1%nat.
Proof.
  intros H. apply model_explained in H as [tr H]. rewrite (explained_layers H). split.
  - intros cell Hin.
    repeat (apply in_app_or in Hin as [Hin | Hin]).
    + simpl in Hin. repeat (destruct Hin as [Hin | Hin]; [discriminate Hin |]). contradiction.
    + apply in_map_iff in Hin as ([[[[f k] a] d] s] & Hin & _).
      simpl in Hin. injection Hin as <-. right. now exists f, k, a, d, s.
    + simpl in Hin. destruct Hin as [Hin | []]. discriminate Hin.
    + apply in_map_iff in Hin as (cfg & Hin & _). discriminate Hin.
    + simpl in Hin. destruct Hin as [Hin | [Hin | []]]; [| discriminate Hin].
      injection Hin as <-. now left.
    + apply in_map_iff in Hin as (cfg & Hin & _). discriminate Hin.
    + simpl in Hin. destruct Hin as [Hin | []]. discriminate Hin.
  - repeat rewrite count_app.
    rewrite !count_none;
      try reflexivity; try (intros x; reflexivity);
      intros [[[[f k] a] d] s]; reflexivity.
Qed.

(** The hidden Dense layers always carry an activation argument and the
    Dropout rate is the one of the flags: in a returned model a Dense layer
    without activation is the final one, with [label_count] units, and a
    Dropout layer has rate [flags.dropout1]. *)
Theorem only_final_dense_is_linear flags m :
  returns model flags = Ok m ->
  (forall units, In (Dense units None) (layers m) -> units = PInt (label_count flags))
  /\ (forall rate, In (Dropout rate) (layers m) -> rate = dropout1 flags).
Proof.
  intros H. apply model_explained in H as [tr H]. rewrite (explained_layers H).
  split.
  - intros units Hin.
    repeat (apply in_app_or in Hin as [Hin | Hin]).
    + simpl in Hin. repeat (destruct Hin as [Hin | Hin]; [discriminate Hin |]). contradiction.
    + apply in_map_iff in Hin as ([[[[f k] a] d] s] & Hin & _). discriminate Hin.
    + simpl in Hin. destruct Hin as [Hin | []]. discriminate Hin.
    + apply in_map_iff in Hin as (cfg & Hin & _). discriminate Hin.
    + simpl in Hin. repeat (destruct Hin as [Hin | Hin]; [discriminate Hin |]). contradiction.
    + apply in_map_iff in Hin as (cfg & Hin & _). discriminate Hin.
    + simpl in Hin. destruct Hin as [Hin | []]. now injection Hin.
  - intros rate Hin.
    repeat (apply in_app_or in Hin as [Hin | Hin]).
    + simpl in Hin. repeat (destruct Hin as [Hin | Hin]; [discriminate Hin |]). contradiction.
    + apply in_map_iff in Hin as ([[[[f k] a] d] s] & Hin & _). discriminate Hin.
    + simpl in Hin. destruct Hin as [Hin | []]. discriminate Hin.
    + apply in_map_iff in Hin as (cfg & Hin & _). discriminate Hin.
    + simpl in Hin. destruct Hin as [Hin | [Hin | []]]; [discriminate Hin |].
      now injection Hin.
    + apply in_map_iff in Hin as (cfg & Hin & _). discriminate Hin.
    + simpl in Hin. destruct Hin as [Hin | []]. discriminate Hin.
Qed.

End Kinds.

(** ** More on shapes *)

Lemma fix_unknown_pair rest n dims :
  keras.fix_unknown_dimension rest [-1; n] = Ok dims ->
  0 < n /\ dims = [keras.prod rest / n; n] /\ keras.prod rest / n * n = keras.prod rest.
Proof.
  unfold keras.fix_unknown_dimension, keras.unknowns, keras.known.
  simpl filter.
  destruct (n <? 0) eqn:Hneg; [simpl; discriminate |].
  apply Z.ltb_ge in Hneg.
  destruct (0 <=? n) eqn:Hnn; [| apply Z.leb_gt in Hnn; lia].
  simpl List.length. cbv beta iota.
  change (keras.prod [n]) with (n * 1). replace (n * 1) with n by ring.
  destruct (n =? 0) eqn:Hz; [simpl; discriminate |].
  apply Z.eqb_neq in Hz.
  destruct (keras.prod rest mod n =? 0) eqn:Hmod; [| simpl; discriminate].
  apply Z.eqb_eq in Hmod. simpl orb. cbv beta iota. simpl map.
  destruct (n <? 0) eqn:Hneg'; [apply Z.ltb_lt in Hneg'; lia |].
  intros H. injection H as <-.
  repeat split; [lia |].
  pose proof (Z.div_mod (keras.prod rest) n Hz) as Hdiv. lia.
Qed.

Section MoreShapes.
Context {fw : Framework}.

(** Under the Keras rule for Reshape, the reshape step of [model] succeeds on
    a tensor of shape [b, t, f, c] only when [f * c] is positive; its output is
    then the same tensor extended by [Reshape (-1, f * c)], of shape
    [b, t, f * c], with as many elements as the input. *)
Theorem reshape_preserves_size
        (rule : forall target s, layer_shape (Reshape target) s = keras.reshape_shape target s)
        net fl net' b t f c :
  shape net = [b; t; f; c] ->
  returns (reshape_block net) fl = Ok net' ->
  0 < f * c
  /\ shape net' = [b; t; f * c]
  /\ history net' = history net ++ [Reshape [-1; f * c]]
  /\ keras.prod (shape net') = keras.prod (shape net).
Proof.
  intros Hs. unfold returns. rewrite reshape_block_run, Hs. simpl snd.
  unfold getitem. cbn [nth_error]. cbv beta iota.
  intros H. apply apply_layer_ok in H as [H Hh]. rewrite rule, Hs in H.
  unfold keras.reshape_shape in H.
  destruct (keras.fix_unknown_dimension [t; f; c] [-1; f * c]) as [dims |] eqn:E;
    [| discriminate H].
  injection H as H. apply fix_unknown_pair in E as (Hpos & -> & _).
  assert (Ht : keras.prod [t; f; c] / (f * c) = t).
  { change (keras.prod [t; f; c]) with (t * (f * (c * 1))).
    rewrite Z.mul_1_r. apply Z.div_mul. lia. }
  rewrite Ht in H. repeat split; try assumption.
  - now symmetry.
  - rewrite <- H.
    change (keras.prod [b; t; f * c]) with (b * (t * (f * c * 1))).
    change (keras.prod [b; t; f; c]) with (b * (t * (f * (c * 1)))).
    ring.
Qed.

(** Under the Keras shape rules the logits of a returned model always have
    exactly the two axes [batch_size, label_count], for every flags record:
    the Flatten before the dense head merges the time axis that a GRU with
    return_sequences set leaves in place. *)
Theorem logits_shape_any_flags (laws : KerasShapes fw) flags m :
  returns model flags = Ok m ->
  shape (outputs m) = [batch_size flags; label_count flags].
Proof.
  intros H. apply model_explained in H as [tr H].
  exact (explained_output_shape laws H).
Qed.

End MoreShapes.

(** ** More on option registration *)

(** Registration keeps option names unique: on a parser whose option names are
    pairwise distinct and that has none of the eleven names yet,
    [model_parameters] returns a parser whose option names are pairwise
    distinct, with the options registered before still first and in order. *)
Theorem model_parameters_keeps_names_distinct parser_nn added :
  model_parameters [] = Ok added ->
  NoDup (map name parser_nn) ->
  (forall a, In a parser_nn -> ~ In (name a) (map name added)) ->
  exists parser',
    model_parameters parser_nn = Ok parser'
    /\ NoDup (map name parser')
    /\ firstn (List.length parser_nn) parser' = parser_nn.
Proof.
  intros Hadd Hnd Hfresh.
  destruct (model_parameters_as_register parser_nn Hadd) as [Hreg Hnda].
  exists (parser_nn ++ added). repeat split.
  - rewrite Hreg. apply register_fresh; [exact Hnda |].
    intros a Ha Hin. apply in_map_iff in Hin as (b & Heq & Hb).
    apply (Hfresh b Hb). rewrite Heq. now apply in_map.
  - rewrite map_app. apply NoDup_app.
    + exact Hnd.
    + exact Hnda.
    + intros n Hn. apply in_map_iff in Hn as (a & <- & Ha). exact (Hfresh a Ha).
  - rewrite firstn_app, Nat.sub_diag, firstn_all. simpl. apply app_nil_r.
Qed.

(** ** Further concrete runs *)

Lemma no_conv_flags_build : exists m, returns (model (fw := reference)) no_conv_flags = Ok m.
Proof. eexists. vm_compute. reflexivity. Defined.

Lemma no_gru_flags_build : exists m, returns (model (fw := reference)) no_gru_flags = Ok m.
Proof. eexists. vm_compute. reflexivity. Defined.

Lemma half_hidden_flags_build :
  exists m, returns (model (fw := reference)) half_hidden_flags = Ok m.
Proof. eexists. vm_compute. reflexivity. Defined.

(** The ragged configuration has 7 + 2 + 1 + 1 layers. *)
Lemma model_layer_count_witness :
  exists m,
    returns (model (fw := reference)) ragged_flags = Ok m /\
    List.length (layers m) = 11%nat.
Proof.
  destruct ragged_flags_build as [m E]. exists m. split; [exact E |].
  exact (@model_layer_count reference ragged_flags m
           [PInt 16; PInt 32; PInt 64]
           [PTuple [PInt 3; PInt 3]; PTuple [PInt 5; PInt 3]]
           [PStr "relu"; PStr "selu"; PStr "selu"]
           [PTuple [PInt 1; PInt 1]; PTuple [PInt 2; PInt 1]; PTuple [PInt 1; PInt 1]]
           [PTuple [PInt 1; PInt 1]; PTuple [PInt 1; PInt 1]; PTuple [PInt 1; PInt 1]]
           [PInt 64; PInt 32] [PInt 1]
           [PInt 128; PInt 64] [PStr "relu"]
           eq_refl eq_refl eq_refl eq_refl eq_refl eq_refl eq_refl eq_refl eq_refl E).
Defined.

(** The second convolution of the small configuration takes the second entry
    of every list. *)
Lemma conv_layers_positional_witness :
  exists m,
    returns (model (fw := reference)) small_flags = Ok m /\
    nth_error (layers m) 4
    = Some (Stream (Conv2D (PInt 32) (PTuple [PInt 5; PInt 3]) (PStr "selu")
                           (PTuple [PInt 2; PInt 1]) (PTuple [PInt 1; PInt 1]))).
Proof.
  destruct small_flags_build as [m E]. exists m. split; [exact E |].
  exact (@conv_layers_positional reference small_flags m
           [PInt 16; PInt 32]
           [PTuple [PInt 3; PInt 3]; PTuple [PInt 5; PInt 3]]
           [PStr "relu"; PStr "selu"]
           [PTuple [PInt 1; PInt 1]; PTuple [PInt 2; PInt 1]]
           [PTuple [PInt 1; PInt 1]; PTuple [PInt 1; PInt 1]]
           1%nat _ _ _ _ _
           eq_refl eq_refl eq_refl eq_refl eq_refl E
           eq_refl eq_refl eq_refl eq_refl eq_refl).
Defined.

(** No filter counts, seven entries everywhere else: no convolution is built
    and the Reshape, fourth layer of the graph, collapses the expand-dims
    output [100, 49, 20, 1] to 20 * 1 columns. *)
Lemma empty_conv_list_skips_stack_witness :
  exists m,
    returns (model (fw := reference)) no_conv_flags = Ok m /\
    count is_conv (layers m) = 0%nat /\
    nth_error (layers m) 3 = Some (Reshape [-1; 20]).
Proof.
  destruct no_conv_flags_build as [m E]. exists m. split; [exact E |].
  destruct (@empty_conv_list_skips_stack reference no_conv_flags m
              []
              [PTuple [PInt 3; PInt 3]; PTuple [PInt 5; PInt 3]; PTuple [PInt 5; PInt 3];
               PTuple [PInt 5; PInt 3]; PTuple [PInt 5; PInt 2]; PTuple [PInt 5; PInt 1];
               PTuple [PInt 5; PInt 1]]
              [PStr "relu"; PStr "selu"; PStr "selu"; PStr "selu"; PStr "selu";
               PStr "selu"; PStr "selu"]
              [PTuple [PInt 1; PInt 1]; PTuple [PInt 1; PInt 1]; PTuple [PInt 2; PInt 1];
               PTuple [PInt 1; PInt 1]; PTuple [PInt 2; PInt 1]; PTuple [PInt 1; PInt 1];
               PTuple [PInt 2; PInt 1]]
              [PTuple [PInt 1; PInt 1]; PTuple [PInt 1; PInt 1]; PTuple [PInt 1; PInt 1];
               PTuple [PInt 1; PInt 1]; PTuple [PInt 1; PInt 1]; PTuple [PInt 1; PInt 1];
               PTuple [PInt 1; PInt 1]]
              eq_refl eq_refl eq_refl eq_refl eq_refl (or_introl eq_refl) E)
    as (Hcount & expanded & feature & channels & rest & Hrun & Hf & Hc & HL).
  split; [exact Hcount |].
  vm_compute in Hrun. injection Hrun as <-.
  vm_compute in Hf, Hc. injection Hf as <-. injection Hc as <-.
  rewrite HL. reflexivity.
Defined.

(** One unit count, no return_sequences entry: no GRU is built. *)
Lemma empty_gru_list_skips_stack_witness :
  exists m,
    returns (model (fw := reference)) no_gru_flags = Ok m /\
    count is_gru (layers m) = 0%nat.
Proof.
  destruct no_gru_flags_build as [m E]. exists m. split; [exact E |].
  exact (proj1 (@empty_gru_list_skips_stack reference no_gru_flags m
                  [PInt 512] [] eq_refl eq_refl (or_intror eq_refl) E)).
Defined.

(** Two hidden sizes, no activation: no hidden Dense is built. *)
Lemma either_empty_drops_hidden_witness :
  exists m,
    returns (model (fw := reference)) half_hidden_flags = Ok m /\
    count is_dense (layers m) = 1%nat.
Proof.
  destruct half_hidden_flags_build as [m E]. exists m. split; [exact E |].
  exact (proj1 (@either_empty_drops_hidden reference half_hidden_flags m
                  [PInt 128; PInt 64] [] eq_refl eq_refl (or_intror eq_refl) E)).
Defined.

(** An unbalanced parenthesis assigned to [gru_units] of the defaults. *)
Lemma broken_string_raises_witness :
  returns (model (fw := reference)) (set_hyper h_gru_units "512,(" default_flags)
  = Raise (SyntaxError "unexpected EOF while parsing").
Proof.
  destruct default_flags_build as [m E].
  apply (@broken_string_raises reference default_flags m h_gru_units); [exact E |].
  vm_compute. reflexivity.
Defined.

(** A third filter count on the small configuration, which has two kernels. *)
Lemma surplus_filters_ignored_witness :
  returns (model (fw := reference)) (set_hyper h_cnn_filters "16,32,64" small_flags)
  = returns (model (fw := reference)) small_flags.
Proof.
  apply (@surplus_filters_ignored reference small_flags "16,32,64"
           [PInt 16; PInt 32] [PInt 64]
           [PTuple [PInt 3; PInt 3]; PTuple [PInt 5; PInt 3]]).
  - vm_compute. reflexivity.
  - vm_compute. reflexivity.
  - vm_compute. reflexivity.
  - simpl. lia.
Defined.

(** Clips shorter than a window: the framing error is raised whatever the
    strings, here all of them malformed. *)
Lemma feature_errors_come_first_witness :
  returns (model (fw := reference))
          (with_strings tiny_clip_flags "((" "((" "((" "((" "((" "((" "((" "((" "((")
  = Raise (ValueError "SpeechFeatures: empty framing").
Proof.
  apply (@feature_errors_come_first reference tiny_clip_flags).
  vm_compute. reflexivity.
Defined.

(** Streamed layers of the small configuration. *)
Lemma stream_wraps_conv_and_flatten_only_witness :
  exists m,
    returns (model (fw := reference)) small_flags = Ok m /\
    (forall cell, In (Stream cell) (layers m) ->
       cell = Flatten \/ exists f k a d s, cell = Conv2D f k a d s).
Proof.
  destruct small_flags_build as [m E]. exists m. split; [exact E |].
  exact (proj1 (stream_wraps_conv_and_flatten_only (fw := reference) small_flags E)).
Defined.

(** Dense layers of the small configuration. *)
Lemma only_final_dense_is_linear_witness :
  exists m,
    returns (model (fw := reference)) small_flags = Ok m /\
    (forall units, In (Dense units None) (layers m) -> units = PInt 12).
Proof.
  destruct small_flags_build as [m E]. exists m. split; [exact E |].
  exact (proj1 (only_final_dense_is_linear (fw := reference) small_flags E)).
Defined.

(** The convolution output of the small configuration, [100, 39, 16, 32], is
    reshaped to [100, 39, 512]. *)
Lemma reshape_preserves_size_witness :
  let net := {| shape := [100; 39; 16; 32]; history := [ExpandDims] |} in
  exists net',
    returns (reshape_block (fw := reference) net) default_flags = Ok net' /\
    shape net' = [100; 39; 512] /\
    keras.prod (shape net') = keras.prod (shape net).
Proof.
  intros net.
  assert (E : exists net', returns (reshape_block (fw := reference) net) default_flags
                           = Ok net')
    by (eexists; vm_compute; reflexivity).
  destruct E as [net' E]. exists net'. split; [exact E |].
  destruct (reshape_preserves_size (fw := reference) (fun target s => eq_refl)
              net default_flags (b := 100) (t := 39) (f := 16) (c := 32) eq_refl E)
    as (_ & Hshape & _ & Hprod).
  split; [exact Hshape | exact Hprod].
Defined.

(** In the ragged configuration the only GRU returns the whole sequence; the
    logits still have two axes. *)
Lemma logits_shape_any_flags_witness :
  exists m,
    returns (model (fw := reference)) ragged_flags = Ok m /\
    In (GRU (PInt 64) (PInt 1) 0) (layers m) /\
    shape (outputs m) = [100; 12].
Proof.
  destruct ragged_flags_build as [m E]. exists m. split; [exact E |].
  split.
  - vm_compute in E. injection E as <-. vm_compute. tauto.
  - exact (logits_shape_any_flags reference_shapes ragged_flags E).
Defined.

(** Registration on a parser that already has a [--batch_size] option. *)
Lemma model_parameters_keeps_names_distinct_witness :
  let parser := [{| name := "--batch_size"; type := type_int; default := PInt 100;
                    help := "Batch size"; choices := None |}] in
  exists added parser',
    model_parameters [] = Ok added
    /\ model_parameters parser = Ok parser'
    /\ NoDup (map name parser')
    /\ firstn 1 parser' = parser.
Proof.
  intros parser.
  destruct (model_parameters []) as [added |] eqn:Hadd;
    [| vm_compute in Hadd; discriminate Hadd].
  exists added.
  destruct (@model_parameters_keeps_names_distinct parser added Hadd) as (parser' & H).
  - repeat constructor. simpl. tauto.
  - intros a [<- | []]. vm_compute in Hadd. injection Hadd as <-.
    simpl. intuition discriminate.
  - exists parser'. split; [reflexivity | exact H].
Defined.

(** Registration on a fresh parser appends the eleven options; on a parser
    that already has [--gru_units], the sixth call raises the conflict. *)
Lemma model_parameters_registers_witness :
  let taken := [{| name := "--gru_units"; type := type_int; default := PInt 128;
                   help := "Units"; choices := None |}] in
  (exists added, model_parameters [] = Ok added /\ List.length added = 11%nat)
  /\ model_parameters taken
     = Raise (ArgumentError "argument --gru_units: conflicting option string: --gru_units").
Proof.
  intros taken. split.
  - destruct (model_parameters_registers []) as (added & Hmap & Hadd & _).
    exists added. split; [exact Hadd |].
    apply (f_equal (@List.length _)) in Hmap. rewrite length_map in Hmap. exact Hmap.
  - destruct (model_parameters_registers taken) as (added & _ & Hadd & _ & Hconflict).
    vm_compute in Hadd. injection Hadd as <-.
    match type of Hconflict with
    | forall before a after, ?added = _ -> _ =>
        let sixth := eval simpl in (nth_error added 5) in
        match sixth with
        | Some ?a => apply (Hconflict (firstn 5 added) a (skipn 6 added))
        end
    end.
    + reflexivity.
    + intros b Hb. simpl in Hb.
      repeat (destruct Hb as [<- | Hb]; [simpl; intuition discriminate |]). contradiction.
    + simpl. now left.
Defined.
